(** * User-account GraphQL service: model and verification

    Shallow embedding of the later generation of the service:
    - the user model ([models/user]: schema, pre-save hashing hook,
      [comparePassword], [generateAuthToken]);
    - the resolvers ([getUser], [getUsers], [createUser], [loginUser],
      [updateUser], [deleteUser]);
    - the per-request [context] function of the standalone server.

    The libraries the service calls (bcryptjs, jsonwebtoken, the document
    store behind mongoose, the entropy source) are collaborators: they are
    the fields of the class [Env], and what is assumed of bcrypt is the
    class [BcryptLaws].  Asynchrony is sequential here: every [await] is a
    plain call, a rejected promise is a [Throw]. *)

From stdpp Require Import base strings list gmap.
From Stdlib Require Import Ascii ZArith Lia.

Local Open Scope string_scope.
Local Open Scope Z_scope.

(** ** JavaScript values, errors and results *)

(** JSON values found in a decoded token payload. *)
Inductive JVal :=
  | JNull
  | JStr (s : string)
  | JNum (n : Z)
  | JBool (b : bool).

(** The error objects that can be thrown.  [Error] is [new Error(msg)] of
    the resolvers; [TypeError] is a property read or a destructuring on
    [null] / [undefined] (the argument names the property); the others are
    thrown by the libraries. *)
Inductive JsError :=
  | Error (msg : string)
  | TypeError (reading : string)
  | ValidationError (paths : list string)
  | CastError (value : JVal)
  | MongoServerError (code : Z)
  | DocumentNotFoundError
  | JsonWebTokenError
  | TokenExpiredError
  | NotBeforeError
  | BcryptError
  | GraphQLError (msg code : string) (http_status : Z).

(** [error.name] *)
Definition error_name (e : JsError) : string :=
  match e with
  | Error _ => "Error"
  | TypeError _ => "TypeError"
  | ValidationError _ => "ValidationError"
  | CastError _ => "CastError"
  | MongoServerError _ => "MongoServerError"
  | DocumentNotFoundError => "DocumentNotFoundError"
  | JsonWebTokenError => "JsonWebTokenError"
  | TokenExpiredError => "TokenExpiredError"
  | NotBeforeError => "NotBeforeError"
  | BcryptError => "Error"
  | GraphQLError _ _ _ => "GraphQLError"
  end.

(** [error.code] *)
Definition error_code (e : JsError) : option Z :=
  match e with
  | MongoServerError c => Some c
  | _ => None
  end.

(** A message is a literal of the source, or the text a library gave to
    the error it threw (kept symbolic). *)
Inductive Message :=
  | Text (s : string)
  | LibraryText (e : JsError).

(** [error.message] *)
Definition error_message (e : JsError) : Message :=
  match e with
  | Error msg => Text msg
  | GraphQLError msg _ _ => Text msg
  | _ => LibraryText e
  end.

(** The outcome of a call: a value, or a thrown error. *)
Inductive JsResult (A : Type) :=
  | Ok (a : A)
  | Throw (e : JsError).
Arguments Ok {A} a.
Arguments Throw {A} e.

(** Truthiness of the optional strings and integers the code tests. *)
Definition truthy_str (s : option string) : bool :=
  match s with
  | Some s => negb (String.eqb s "")
  | None => false
  end.

Definition truthy_int (n : option Z) : bool :=
  match n with
  | Some n => negb (n =? 0)
  | None => false
  end.

(** [n || d] on an optional integer. *)
Definition or_int (n : option Z) (d : Z) : Z :=
  match n with
  | Some n => if n =? 0 then d else n
  | None => d
  end.

(** [Math.ceil(a / b)] for integers [a], [b] with [b] not zero. *)
Definition Math_ceil_div (a b : Z) : Z := - ((- a) / b).

(** [s.split(sep)] for a one-character separator. *)
Fixpoint split (sep : Ascii.ascii) (s : string) : list string :=
  match s with
  | EmptyString => [EmptyString]
  | String c s' =>
      if Ascii.eqb c sep then EmptyString :: split sep s'
      else match split sep s' with
           | [] => [String c EmptyString]
           | w :: ws => String c w :: ws
           end
  end.

(** ** Data model *)

(** A user document.  The four string paths can be unset in memory. *)
Record User := mkUser {
  _id : string;
  username : option string;
  email : option string;
  password : option string;
  address : option string;
  role : string;
}.

(** What differs between the two copies of the model. *)
Record UserModel := mkUserModel {
  email_unique : bool;
  password_required : bool;
  token_has_role : bool;
}.

(** [models/user] of the TypeScript source. *)
Definition userSchema : UserModel :=
  {| email_unique := true; password_required := false; token_has_role := true |}.

(** [dist/models/user.js], the older compiled copy. *)
Definition userSchema_dist : UserModel :=
  {| email_unique := false; password_required := true; token_has_role := false |}.

(** A document in memory: its paths, whether it was built by [new User],
    and the paths assigned since it was built or loaded. *)
Record Document := mkDocument {
  fields : User;
  isNew : bool;
  modifiedPaths : list string;
}.

Definition isModified (path : string) (d : Document) : bool :=
  bool_decide (path ∈ modifiedPaths d).

(** GraphQL inputs; every field is nullable. *)
Record UserInput := mkUserInput {
  in_username : option string;
  in_email : option string;
  in_password : option string;
  in_address : option string;
}.

Record UpdateUserInput := mkUpdateUserInput {
  up_username : option string;
  up_email : option string;
  up_address : option string;
}.

Record PaginationInput := mkPaginationInput {
  limit : option Z;
  page : option Z;
}.

Record SortInput := mkSortInput {
  sortBy : option string;
}.

(** ** Collaborators *)

Class Env := {
  (** entropy consumed by [bcrypt.genSalt] and by ObjectId generation *)
  Rng : Type;
  (** [bcrypt.genSalt(rounds)] *)
  bcrypt_genSalt : Z → Rng → string * Rng;
  (** [bcrypt.hash(data, salt)] *)
  bcrypt_hash : string → string → string;
  (** [bcrypt.compare(candidate, hash)] *)
  bcrypt_compare : string → string → bool;
  (** [jwt.sign(payload, secret, { expiresIn })] at a given time *)
  jwt_sign : gmap string JVal → option string → Z → Z → JsResult string;
  (** [jwt.verify(token, secret)] at a given time *)
  jwt_verify : string → option string → Z → JsResult (string + gmap string JVal);
  (** a fresh ObjectId for [new User] *)
  newObjectId : Rng → string * Rng;
  (** the cast of a value to an ObjectId; [None] is a CastError *)
  castObjectId : JVal → option string;
  (** the order [query.sort(sortBy)] gives to the collection *)
  query_sort : string → list User → list User;
  (** the code of the server error for a negative skip *)
  negative_skip_code : Z;
  (** [process.env.JWT_SECRET] *)
  JWT_SECRET : option string;
}.

(** What is assumed of bcrypt, for salts that [genSalt] produced: a hash
    verifies against the plaintext it was made from, and the hash of a
    plaintext determines the salt. *)
Class BcryptLaws (E : Env) := {
  compare_hash : ∀ p rounds r,
    bcrypt_compare p (bcrypt_hash p (bcrypt_genSalt rounds r).1) = true;
  hash_salt_inj : ∀ p rounds r1 r2,
    bcrypt_hash p (bcrypt_genSalt rounds r1).1
      = bcrypt_hash p (bcrypt_genSalt rounds r2).1 →
    (bcrypt_genSalt rounds r1).1 = (bcrypt_genSalt rounds r2).1;
}.

(** ** The store and the effects of a request *)

(** The state a request runs in: the users collection in its natural
    order, the entropy source, and the clock. *)
Record World `{E : Env} := mkWorld {
  users : list User;
  entropy : Rng;
  now : Z;
}.

(** A computation reads and writes the world and returns or throws; the
    world it leaves is kept when it throws. *)
Definition Eff `{E : Env} (A : Type) : Type := World → JsResult A * World.

Definition ret `{E : Env} {A} (a : A) : Eff A := λ w, (Ok a, w).
Definition throw `{E : Env} {A} (e : JsError) : Eff A := λ w, (Throw e, w).
Definition bind `{E : Env} {A B} (m : Eff A) (k : A → Eff B) : Eff B :=
  λ w, match m w with
       | (Ok a, w') => k a w'
       | (Throw e, w') => (Throw e, w')
       end.
Definition lift `{E : Env} {A} (r : JsResult A) : Eff A := λ w, (r, w).

(** [try { body } catch (error) { handler }] *)
Definition try_catch_eff `{E : Env} {A} (body : Eff A) (handler : JsError → Eff A)
  : Eff A :=
  λ w, match body w with
       | (Ok a, w') => (Ok a, w')
       | (Throw e, w') => handler e w'
       end.

Notation "'do' x <- m ; k" := (bind m (λ x, k))
  (at level 10, x binder, m at level 100, k at level 200).

Section Service.
Context `{E : Env}.
(** the copy of the user model the server is linked with *)
Variable M : UserModel.

(** *** models/user *)

(** The [required: true] validator of a String path. *)
Definition required_missing (path : string) (v : option string) : list string :=
  if truthy_str v then [] else [path].

(** Schema validation, which mongoose runs before the [save] hooks. *)
Definition validate (d : Document) : JsResult () :=
  let u := fields d in
  let bad := (required_missing "username" (username u)
              ++ required_missing "email" (email u)
              ++ (if password_required M
                  then required_missing "password" (password u) else [])
              ++ required_missing "address" (address u))%list in
  match bad with
  | [] => Ok ()
  | _ => Throw (ValidationError bad)
  end.

Definition set_password (h : string) (d : Document) : Document :=
  let u := fields d in
  {| fields := mkUser (_id u) (username u) (email u) (Some h) (address u) (role u);
     isNew := isNew d;
     modifiedPaths := modifiedPaths d |}.

(** [userSchema.pre("save", ...)] *)
Definition preSave (d : Document) (r : Rng) : JsResult Document * Rng :=
  if negb (isModified "password" d) then (Ok d, r)
  else
    let '(salt, r') := bcrypt_genSalt 10 r in
    match password (fields d) with
    | Some p => (Ok (set_password (bcrypt_hash p salt) d), r')
    | None => (Throw BcryptError, r')
    end.

(** [userSchema.methods.comparePassword] *)
Definition comparePassword (this : User) (candidatePassword : string)
  : JsResult bool :=
  match password this with
  | Some h => Ok (bcrypt_compare candidatePassword h)
  | None => Throw BcryptError
  end.

Definition set_opt (k : string) (v : option string) (m : gmap string JVal)
  : gmap string JVal :=
  match v with
  | Some s => <[k := JStr s]> m
  | None => m
  end.

(** The payload object of [generateAuthToken]; an unset path is left out
    by the serialisation. *)
Definition token_payload (this : User) : gmap string JVal :=
  let base := set_opt "email" (email this)
                (set_opt "username" (username this)
                   {[ "userId" := JStr (_id this) ]}) in
  if token_has_role M then <["role" := JStr (role this)]> base else base.

(** [userSchema.methods.generateAuthToken], with [expiresIn: "1h"] *)
Definition generateAuthToken (this : User) (t : Z) : JsResult string :=
  jwt_sign (token_payload this) JWT_SECRET 3600 t.

(** [new User({ username, email, password, address })]: on a new
    document every key of the object literal is marked modified, also one
    whose value is [undefined]. *)
Definition new_User (oid : string) (ui : UserInput) : Document :=
  {| fields := mkUser oid (in_username ui) (in_email ui) (in_password ui)
                 (in_address ui) "User";
     isNew := true;
     modifiedPaths := ["username"; "email"; "password"; "address"] |}.

(** A document as a query returns it. *)
Definition loaded (u : User) : Document :=
  {| fields := u; isNew := false; modifiedPaths := [] |}.

(** An assignment marks the path modified when the value changes. *)
Definition mark (path : string) (changed : bool) (d : Document) : list string :=
  if changed then path :: modifiedPaths d else modifiedPaths d.

Definition assign_username (v : option string) (d : Document) : Document :=
  let u := fields d in
  {| fields := mkUser (_id u) v (email u) (password u) (address u) (role u);
     isNew := isNew d;
     modifiedPaths := mark "username" (negb (bool_decide (username u = v))) d |}.

Definition assign_email (v : option string) (d : Document) : Document :=
  let u := fields d in
  {| fields := mkUser (_id u) (username u) v (password u) (address u) (role u);
     isNew := isNew d;
     modifiedPaths := mark "email" (negb (bool_decide (email u = v))) d |}.

Definition assign_address (v : option string) (d : Document) : Document :=
  let u := fields d in
  {| fields := mkUser (_id u) (username u) (email u) (password u) v (role u);
     isNew := isNew d;
     modifiedPaths := mark "address" (negb (bool_decide (address u = v))) d |}.

(** *** The collection *)

Definition has_id (oid : string) (u : User) : bool := bool_decide (_id u = oid).

Definition lookup_id (oid : string) (us : list User) : option User :=
  List.find (has_id oid) us.

(** [User.findById(id)] *)
Definition findById (id : JVal) : Eff (option User) :=
  λ w, match castObjectId id with
       | None => (Throw (CastError id), w)
       | Some oid => (Ok (lookup_id oid (users w)), w)
       end.

(** [User.findOne({ email })] *)
Definition findOne_email (e : string) : Eff (option User) :=
  λ w, (Ok (List.find (λ u, bool_decide (email u = Some e)) (users w)), w).

Fixpoint delete_first (oid : string) (us : list User) : list User :=
  match us with
  | [] => []
  | u :: us' => if has_id oid u then us' else u :: delete_first oid us'
  end.

(** [User.findByIdAndDelete(id)] *)
Definition findByIdAndDelete (id : JVal) : Eff (option User) :=
  λ w, match castObjectId id with
       | None => (Throw (CastError id), w)
       | Some oid =>
           (Ok (lookup_id oid (users w)),
            mkWorld _ (delete_first oid (users w)) (entropy w) (now w))
       end.

(** The insert of a new document: the keys of the [_id] index and, when
    the schema declares it, of the unique [email] index must be free;
    the driver reports a taken key with code 11000. *)
Definition insertOne (u : User) (us : list User) : JsResult (list User) :=
  if existsb (has_id (_id u)) us then Throw (MongoServerError 11000)
  else if email_unique M && existsb (λ x, bool_decide (email x = email u)) us
  then Throw (MongoServerError 11000)
  else Ok (us ++ [u])%list.

Fixpoint replace_first (u : User) (us : list User) : list User :=
  match us with
  | [] => []
  | x :: us' => if has_id (_id u) x then u :: us' else x :: replace_first u us'
  end.

(** The update of a loaded document: the stored document with its [_id]
    takes the values of the document in memory; a modified [email] must
    not be the key of another document when the index is unique. *)
Definition updateOne (d : Document) (us : list User) : JsResult (list User) :=
  let u := fields d in
  if negb (existsb (has_id (_id u)) us) then Throw DocumentNotFoundError
  else if email_unique M && isModified "email" d
          && existsb (λ x, negb (has_id (_id u) x)
                           && bool_decide (email x = email u)) us
  then Throw (MongoServerError 11000)
  else Ok (replace_first u us).

(** [document.save()]: validation, the pre-save hook, then the write. *)
Definition save (d : Document) : Eff Document :=
  λ w, match validate d with
       | Throw e => (Throw e, w)
       | Ok _ =>
           match preSave d (entropy w) with
           | (Throw e, r) => (Throw e, mkWorld _ (users w) r (now w))
           | (Ok d', r) =>
               let written := if isNew d' then insertOne (fields d') (users w)
                              else updateOne d' (users w) in
               match written with
               | Throw e => (Throw e, mkWorld _ (users w) r (now w))
               | Ok us =>
                   (Ok {| fields := fields d'; isNew := false; modifiedPaths := [] |},
                    mkWorld _ us r (now w))
               end
           end
       end.

(** [User.countDocuments()] *)
Definition countDocuments : Eff Z := λ w, (Ok (Z.of_nat (length (users w))), w).

(** A [find()] query with the options set on it. *)
Record Query := mkQuery {
  q_sort : option string;
  q_limit : option Z;
  q_skip : option Z;
}.

(** [query.exec()]: sort, then skip, then limit, whatever the order in
    which they were set.  The store refuses a negative skip, and reads a
    negative limit as its absolute value. *)
Definition exec (q : Query) : Eff (list User) :=
  λ w,
    let sorted := match q_sort q with
                  | Some s => query_sort s (users w)
                  | None => users w
                  end in
    let skipped := match q_skip q with
                   | Some k => if k <? 0 then Throw (MongoServerError negative_skip_code)
                               else Ok (drop (Z.to_nat k) sorted)
                   | None => Ok sorted
                   end in
    match skipped with
    | Throw e => (Throw e, w)
    | Ok l => (Ok match q_limit q with
                  | Some n => take (Z.abs_nat n) l
                  | None => l
                  end, w)
    end.
End Service.

(** ** Resolvers *)

Record PageInfo := mkPageInfo {
  totalUsers : Z;
  totalPages : Z;
  currentPage : option Z;
}.

(** The [data] of an envelope: one user or a list. *)
Inductive Payload :=
  | OneUser (u : User)
  | ManyUsers (us : list User).

(** The object a resolver returns; a key it does not set is [None]. *)
Record Envelope := mkEnvelope {
  status : Z;
  success : bool;
  message : option Message;
  error : option Message;
  data : option Payload;
  user : option User;
  token : option string;
  userData : option User;
  pageInfo : option PageInfo;
}.

(** The value of the [context] function when it returns an object. *)
Record Context := mkContext {
  ctx_token : string;
  ctx_user : option User;
}.

(** The empty object the server gives to the resolvers as context when
    the context function returned [undefined]: it has no [user] (and no
    [token], which no resolver reads). *)
Definition empty_context : Context := mkContext "" None.

(** [{ success: false, status: 403, message: "Forbidden" }] *)
Definition forbidden : Envelope :=
  mkEnvelope 403 false (Some (Text "Forbidden")) None None None None None None.

(** [{ status, success: false, message, error: error.message }] *)
Definition failure_with_error (st : Z) (msg : string) (e : JsError) : Envelope :=
  mkEnvelope st false (Some (Text msg)) (Some (error_message e)) None None None None None.

(** [{ status: 500, success: false, message: error.message }] *)
Definition failure_500 (e : JsError) : Envelope :=
  mkEnvelope 500 false (Some (error_message e)) None None None None None None.

(** [user.role], a TypeError when [user] is [null]. *)
Definition read_role (u : option User) : JsResult string :=
  match u with
  | Some u => Ok (role u)
  | None => Throw (TypeError "role")
  end.

Section Resolvers.
Context `{E : Env}.
Variable M : UserModel.

(** [Query.getUser] *)
Definition getUser (ID : string) (ctx : option Context) : Eff Envelope :=
  match ctx with
  | None => throw (TypeError "user")
  | Some c =>
      try_catch_eff
        (do r <- lift (read_role (ctx_user c));
         if negb (String.eqb r "Admin") then ret forbidden
         else
           do singleUser <- findById (JStr ID);
           match singleUser with
           | None => throw (Error "User not found")
           | Some u =>
               ret (mkEnvelope 200 true None None None (Some u) None None None)
           end)
        (λ error, ret (failure_with_error 500 "Server Error" error))
  end.

(** [Query.getUsers] *)
Definition getUsers (pagination : option PaginationInput) (sort : option SortInput)
    (ctx : option Context) : Eff Envelope :=
  match ctx with
  | None => throw (TypeError "user")
  | Some c =>
      try_catch_eff
        (let limit := pagination ≫= limit in
         let page := pagination ≫= page in
         let sortBy := sort ≫= sortBy in
         do r <- lift (read_role (ctx_user c));
         if negb (String.eqb r "Admin") then ret forbidden
         else
           let q0 := mkQuery None None None in
           let q1 := if truthy_str sortBy
                     then mkQuery sortBy (q_limit q0) (q_skip q0) else q0 in
           let q2 := if truthy_int limit
                     then mkQuery (q_sort q1) limit (q_skip q1) else q1 in
           let q3 := match page with
                     | Some p =>
                         if negb (p =? 0)
                         then mkQuery (q_sort q2) (q_limit q2)
                                (Some ((p - 1) * or_int limit 0))
                         else q2
                     | None => q2
                     end in
           do found <- exec q3;
           do totalUsers <- countDocuments;
           let totalPages := Math_ceil_div totalUsers (or_int limit 10) in
           ret (mkEnvelope 200 true None None (Some (ManyUsers found)) None None None
                  (Some (mkPageInfo totalUsers totalPages page))))
        (λ error, ret (failure_with_error 500 "Server Error" error))
  end.

(** [Mutation.createUser] *)
Definition createUser (userInput : option UserInput) (ctx : option Context)
  : Eff Envelope :=
  match ctx with
  | None => throw (TypeError "user")
  | Some c =>
      try_catch_eff
        (do r <- lift (read_role (ctx_user c));
         if negb (String.eqb r "Admin") then ret forbidden
         else
           match userInput with
           | None => throw (TypeError "username")
           | Some ui =>
               do oid <- (λ w, let '(oid, r') := newObjectId (entropy w) in
                               (Ok oid, mkWorld _ (users w) r' (now w)));
               let createdUser := new_User oid ui in
               do _ <- save M createdUser;
               ret (mkEnvelope 201 true (Some (Text "User created successfully")) None
                      (OneUser <$> ctx_user c) None None None None)
           end)
        (λ error,
           if String.eqb (error_name error) "MongoServerError"
              && bool_decide (error_code error = Some 11000)
           then ret (failure_with_error 400 "Email already exists" error)
           else ret (failure_with_error 500 "Internal Server Error" error))
  end.

(** [Mutation.loginUser] *)
Definition loginUser (email password : string) : Eff Envelope :=
  try_catch_eff
    (do found <- findOne_email email;
     match found with
     | None => throw (Error "User not found")
     | Some u =>
         do isPasswordValid <- lift (comparePassword u password);
         if negb isPasswordValid then throw (Error "Invalid password")
         else
           do tok <- (λ w, (generateAuthToken M u (now w), w));
           ret (mkEnvelope 200 true (Some (Text "Login successfully")) None None
                  (Some u) (Some tok) (Some u) None)
     end)
    (λ error, ret (failure_500 error)).

(** [Mutation.updateUser] *)
Definition updateUser (ID : string) (userInput : option UpdateUserInput)
    (ctx : option Context) : Eff Envelope :=
  match ctx with
  | None => throw (TypeError "user")
  | Some c =>
      try_catch_eff
        (do r <- lift (read_role (ctx_user c));
         if negb (String.eqb r "Admin") then ret forbidden
         else
           do singleUser <- findById (JStr ID);
           match singleUser with
           | None => throw (Error "User not found")
           | Some u =>
               match userInput with
               | None => throw (TypeError "username")
               | Some ui =>
                   let d := assign_address (up_address ui)
                              (assign_email (up_email ui)
                                 (assign_username (up_username ui) (loaded u))) in
                   do saved <- save M d;
                   ret (mkEnvelope 200 true (Some (Text "User updated successfully"))
                          None None (Some (fields saved)) None None None)
               end
           end)
        (λ error, ret (failure_500 error))
  end.

(** [Mutation.deleteUser] *)
Definition deleteUser (ID : string) (ctx : option Context) : Eff Envelope :=
  match ctx with
  | None => throw (TypeError "user")
  | Some c =>
      try_catch_eff
        (do r <- lift (read_role (ctx_user c));
         if negb (String.eqb r "Admin") then ret forbidden
         else
           do deletedUser <- findByIdAndDelete (JStr ID);
           match deletedUser with
           | None => throw (Error "User not found")
           | Some u =>
               ret (mkEnvelope 200 true (Some (Text "User deleted successfully"))
                      None None (Some u) None None None)
           end)
        (λ error, ret (failure_500 error))
  end.

(** *** The server *)

(** An incoming request: the [authorization] header, when there is one. *)
Record Request := mkRequest {
  authorization : option string;
}.

(** [new GraphQLError("Invalid token", { extensions: { code:
    "INVALID_TOKEN", http: { status: 401 } } })] *)
Definition invalid_token : JsError := GraphQLError "Invalid token" "INVALID_TOKEN" 401.

(** The [context] function given to [startStandaloneServer]; [None] is the
    [undefined] it returns when it finds no token. *)
Definition context (req : Request) : Eff (option Context) :=
  match authorization req with
  | None => throw (TypeError "split")
  | Some header =>
      let token := split " "%char header !! 1%nat in
      match token with
      | Some tok =>
          if truthy_str token then
            try_catch_eff
              (do decoded <- (λ w, (jwt_verify tok JWT_SECRET (now w), w));
               match decoded with
               | inl _ => throw invalid_token
               | inr obj =>
                   match obj !! "userId" with
                   | None => throw invalid_token
                   | Some userId =>
                       do u <- findById userId;
                       ret (Some (mkContext tok u))
                   end
               end)
              (λ error, throw invalid_token)
          else ret None
      | None => ret None
      end
  end.

(** The operations of the schema with their arguments. *)
Inductive Operation :=
  | OpGetUser (ID : string)
  | OpGetUsers (pagination : option PaginationInput) (sort : option SortInput)
  | OpCreateUser (userInput : option UserInput)
  | OpLoginUser (email password : string)
  | OpUpdateUser (ID : string) (userInput : option UpdateUserInput)
  | OpDeleteUser (ID : string).

Definition resolve (op : Operation) (ctx : option Context) : Eff Envelope :=
  match op with
  | OpGetUser ID => getUser ID ctx
  | OpGetUsers pagination sort => getUsers pagination sort ctx
  | OpCreateUser userInput => createUser userInput ctx
  | OpLoginUser email password => loginUser email password
  | OpUpdateUser ID userInput => updateUser ID userInput ctx
  | OpDeleteUser ID => deleteUser ID ctx
  end.

(** What the server answers: the context function threw and no resolver
    was called; the resolver threw; the resolver returned its envelope. *)
Inductive Response :=
  | ContextCreationFailed (e : JsError) (http_status : Z)
  | FieldError (e : JsError)
  | Data (env : Envelope).

(** The status of a failed context: the one the error carries, else 500. *)
Definition context_failure_status (e : JsError) : Z :=
  match e with
  | GraphQLError _ _ st => st
  | _ => 500
  end.

(** One request: the context function runs first; the resolver of the
    operation runs only when it returned, with the object it returned or,
    when it returned [undefined], with the empty object. *)
Definition handleRequest (req : Request) (op : Operation) (w : World)
  : Response * World :=
  match context req w with
  | (Throw e, w') => (ContextCreationFailed e (context_failure_status e), w')
  | (Ok ctx, w') =>
      match resolve op (Some (default empty_context ctx)) w' with
      | (Throw e, w'') => (FieldError e, w'')
      | (Ok env, w'') => (Data env, w'')
      end
  end.
End Resolvers.

(** ** A small instance of the collaborators

    Used to run the model on concrete requests.  Salts are one character
    long and a hash is the salt followed by the plaintext; a token is the
    key, a dot and the user id, or the key and [#] for a signed payload
    without [userId]; ids are the non-empty strings. *)

Definition sample_genSalt (rounds : Z) (r : nat) : string * nat :=
  (String (ascii_of_nat r) EmptyString, S r).

Definition sample_hash (data salt : string) : string := String.append salt data.

Definition sample_compare (candidate hash : string) : bool :=
  match hash with
  | String _ rest => String.eqb rest candidate
  | EmptyString => false
  end.

Definition sample_sign (payload : gmap string JVal) (secret : option string)
    (expiresIn t : Z) : JsResult string :=
  match secret, payload !! "userId" with
  | Some k, Some (JStr uid) => Ok (String.append k (String.append "." uid))
  | _, _ => Throw JsonWebTokenError
  end.

Definition sample_verify (tok : string) (secret : option string) (t : Z)
  : JsResult (string + gmap string JVal) :=
  match secret with
  | None => Throw JsonWebTokenError
  | Some k =>
      if String.prefix (String.append k ".") tok
      then Ok (inr {[ "userId" :=
                        JStr (String.substring (S (String.length k))
                                (String.length tok) tok) ]})
      else if String.prefix (String.append k "#") tok then Ok (inr ∅)
      else Throw JsonWebTokenError
  end.

Definition sample_newObjectId (r : nat) : string * nat :=
  (String.append "id" (String (ascii_of_nat r) EmptyString), S r).

Definition sample_castObjectId (v : JVal) : option string :=
  match v with
  | JStr s => if String.eqb s "" then None else Some s
  | _ => None
  end.

Definition sampleEnv : Env :=
  {| Rng := nat;
     bcrypt_genSalt := sample_genSalt;
     bcrypt_hash := sample_hash;
     bcrypt_compare := sample_compare;
     jwt_sign := sample_sign;
     jwt_verify := sample_verify;
     newObjectId := sample_newObjectId;
     castObjectId := sample_castObjectId;
     query_sort := λ _ us, rev us;
     negative_skip_code := 51024;
     JWT_SECRET := Some "k" |}.

Definition alice : User :=
  mkUser "a1" (Some "alice") (Some "alice@example.org") (Some "Apw-alice")
    (Some "1 Main St") "Admin".

Definition bob : User :=
  mkUser "b2" (Some "bob") (Some "bob@example.org") (Some "Bpw-bob")
    (Some "2 Side St") "User".

Definition sampleWorld : @World sampleEnv :=
  @mkWorld sampleEnv [alice; bob] 67%nat 1000.

Definition aliceContext : Context := mkContext "k.a1" (Some alice).

Definition carol_input : UserInput :=
  mkUserInput (Some "carol") (Some "carol@example.org") (Some "pw-carol")
    (Some "3 High St").

Definition sample_users (names : list string) : list User :=
  (λ n, mkUser (String.append "id-" n) (Some n)
          (Some (String.append n "@example.org")) None (Some "1 Main St") "User")
    <$> names.

(** The error the three lookups by id end with when they find nothing. *)
Definition lookup_failure `{E : Env} (ID : string) : JsError :=
  match castObjectId (JStr ID) with
  | Some _ => Error "User not found"
  | None => CastError (JStr ID)
  end.

(** The document [updateUser] saves: the loaded account with the three
    paths assigned from the input. *)
Definition updated_document (u : User) (ui : UpdateUserInput) : Document :=
  assign_address (up_address ui)
    (assign_email (up_email ui) (assign_username (up_username ui) (loaded u))).

(** Same [_id], same stored password, same role. *)
Definition same_credentials (before after : User) : Prop :=
  _id after = _id before
  ∧ password after = password before
  ∧ role after = role before.

(** ** The entropy stream *)

(** One draw from the entropy source, by [genSalt] or for a new ObjectId. *)
Definition entropy_step `{E : Env} (r r' : Rng) : Prop :=
  (∃ rounds, r' = (bcrypt_genSalt rounds r).2) ∨ r' = (newObjectId r).2.

(** What is assumed of the randomness of [genSalt]: once a salt has been
    drawn, no later draw on the same entropy stream gives it again. *)
Class SaltLaws (E : Env) := {
  salt_fresh : ∀ rounds r r',
    rtc entropy_step (bcrypt_genSalt rounds r).2 r' →
    (bcrypt_genSalt rounds r').1 ≠ (bcrypt_genSalt rounds r).1;
}.

(** A second instance, whose salts never repeat: the entropy is a
    counter, the salt drawn at [n] is [n] times the letter s, and a hash is
    the salt, a dollar sign and the plaintext. *)
Fixpoint counter_salt (n : nat) : string :=
  match n with
  | O => EmptyString
  | S n => String "s" (counter_salt n)
  end.

Definition counter_genSalt (rounds : Z) (r : nat) : string * nat :=
  (counter_salt r, S r).

Definition counter_hash (data salt : string) : string :=
  String.append salt (String "$" data).

Fixpoint drop_salt (hash : string) : string :=
  match hash with
  | EmptyString => EmptyString
  | String c rest => if Ascii.eqb c "s" then drop_salt rest else hash
  end.

Definition counter_compare (candidate hash : string) : bool :=
  match drop_salt hash with
  | String c rest => Ascii.eqb c "$" && String.eqb rest candidate
  | EmptyString => false
  end.

Definition counterEnv : Env :=
  {| Rng := nat;
     bcrypt_genSalt := counter_genSalt;
     bcrypt_hash := counter_hash;
     bcrypt_compare := counter_compare;
     jwt_sign := sample_sign;
     jwt_verify := sample_verify;
     newObjectId := sample_newObjectId;
     castObjectId := sample_castObjectId;
     query_sort := λ _ us, rev us;
     negative_skip_code := 51024;
     JWT_SECRET := Some "k" |}.

(** ** Further parts of the service *)

(** What is assumed of jsonwebtoken where a token is issued and later
    presented: a token signed with a secret verifies under that secret
    until it expires, and decodes to an object that holds the [userId] of
    the signed payload. *)
Class JwtLaws (E : Env) := {
  verify_sign_userId : ∀ payload secret expiresIn t t' tok,
    jwt_sign payload (Some secret) expiresIn t = Ok tok →
    t ≤ t' < t + expiresIn →
    ∃ obj, jwt_verify tok (Some secret) t' = Ok (inr obj)
           ∧ obj !! "userId" = payload !! "userId";
}.

(** No two stored accounts share an [_id]; no two share an [email]. *)
Definition unique_ids (us : list User) : Prop := NoDup (_id <$> us).
Definition unique_emails (us : list User) : Prop := NoDup (email <$> us).

(** The account [createUser] stores for an input: the role is the default
    of the schema and the password is the hash made by the pre-save hook
    with the salt drawn from the entropy left by the ObjectId. *)
Definition created_account `{E : Env} (oid : string) (ui : UserInput) (r : Rng) : User :=
  mkUser oid (in_username ui) (in_email ui)
    (match in_password ui with
     | Some p => Some (bcrypt_hash p (bcrypt_genSalt 10 r).1)
     | None => None
     end)
    (in_address ui) "User".

(** The account [updateUser] stores over a target. *)
Definition updated_account (target : User) (ui : UpdateUserInput) : User :=
  mkUser (_id target) (up_username ui) (up_email ui) (password target)
    (up_address ui) (role target).

(** [user.password = password] *)
Definition assign_password (v : option string) (d : Document) : Document :=
  let u := fields d in
  {| fields := mkUser (_id u) (username u) (email u) v (address u) (role u);
     isNew := isNew d;
     modifiedPaths := mark "password" (negb (bool_decide (password u = v))) d |}.

(** *** The earlier generation of the server

    The same resolvers before the role gate: no context, a [filter]
    instead of a [sort] in [getUsers], a password in the input of
    [updateUser], and one catch-all status. *)
Module Gen1.

Record FilterInput := mkFilterInput {
  f_username : option string;
  f_email : option string;
}.

(** The query object built from the filter: a key is set when its value
    is truthy, and a document matches when it has the value of every key
    that is set. *)
Definition matches (flt : option FilterInput) (u : User) : bool :=
  let name := flt ≫= f_username in
  let mail := flt ≫= f_email in
  (if truthy_str name then bool_decide (username u = name) else true)
  && (if truthy_str mail then bool_decide (email u = mail) else true).

Section Resolvers.
Context `{E : Env}.
Variable M : UserModel.

(** [User.find(query)] with the options set on it, executed. *)
Definition find_exec (flt : option FilterInput) (q : Query) : Eff (list User) :=
  λ w,
    let found := List.filter (matches flt) (users w) in
    let sorted := match q_sort q with
                  | Some s => query_sort s found
                  | None => found
                  end in
    let skipped := match q_skip q with
                   | Some k => if k <? 0 then Throw (MongoServerError negative_skip_code)
                               else Ok (drop (Z.to_nat k) sorted)
                   | None => Ok sorted
                   end in
    match skipped with
    | Throw e => (Throw e, w)
    | Ok l => (Ok match q_limit q with
                  | Some n => take (Z.abs_nat n) l
                  | None => l
                  end, w)
    end.

(** [User.countDocuments(query)] *)
Definition countDocuments (flt : option FilterInput) : Eff Z :=
  λ w, (Ok (Z.of_nat (length (List.filter (matches flt) (users w)))), w).

(** [Query.getUser] *)
Definition getUser (ID : string) : Eff Envelope :=
  try_catch_eff
    (do found <- findById (JStr ID);
     match found with
     | None => throw (Error "User not found")
     | Some u =>
         ret (mkEnvelope 200 true None None (Some (OneUser u)) None None None None)
     end)
    (λ error, ret (failure_with_error 500 "Server Error" error)).

(** [Query.getUsers] *)
Definition getUsers (pagination : option PaginationInput)
    (filter : option FilterInput) : Eff Envelope :=
  try_catch_eff
    (let limit := pagination ≫= limit in
     let page := pagination ≫= page in
     let q0 := mkQuery None None None in
     let q1 := if truthy_int limit
               then mkQuery (q_sort q0) limit (q_skip q0) else q0 in
     let q2 := match page with
               | Some p =>
                   if negb (p =? 0)
                   then mkQuery (q_sort q1) (q_limit q1)
                          (Some ((p - 1) * or_int limit 0))
                   else q1
               | None => q1
               end in
     do found <- find_exec filter q2;
     do totalUsers <- countDocuments filter;
     let totalPages := Math_ceil_div totalUsers (or_int limit 10) in
     ret (mkEnvelope 200 true None None (Some (ManyUsers found)) None None None
            (Some (mkPageInfo totalUsers totalPages page))))
    (λ error, ret (failure_with_error 500 "Server Error" error)).

(** [Mutation.createUser] *)
Definition createUser (userInput : option UserInput) : Eff Envelope :=
  try_catch_eff
    (match userInput with
     | None => throw (TypeError "username")
     | Some ui =>
         do oid <- (λ w, let '(oid, r') := newObjectId (entropy w) in
                         (Ok oid, mkWorld _ (users w) r' (now w)));
         do saved <- save M (new_User oid ui);
         ret (mkEnvelope 201 true (Some (Text "User created successfully")) None
                (Some (OneUser (fields saved))) None None None None)
     end)
    (λ error, ret (failure_with_error 500 "Internal Server Error" error)).

(** [Mutation.updateUser] *)
Definition updateUser (ID : string) (userInput : option UserInput) : Eff Envelope :=
  try_catch_eff
    (do found <- findById (JStr ID);
     match found with
     | None => throw (Error "User not found")
     | Some u =>
         match userInput with
         | None => throw (TypeError "username")
         | Some ui =>
             let d := assign_address (in_address ui)
                        (assign_password (in_password ui)
                           (assign_email (in_email ui)
                              (assign_username (in_username ui) (loaded u)))) in
             do saved <- save M d;
             ret (mkEnvelope 200 true (Some (Text "User updated successfully")) None
                    (Some (OneUser (fields saved))) None None None None)
         end
     end)
    (λ error, ret (failure_with_error 500 "Internal Server Error" error)).

(** [Mutation.deleteUser] *)
Definition deleteUser (ID : string) : Eff Envelope :=
  try_catch_eff
    (do deleted <- findByIdAndDelete (JStr ID);
     match deleted with
     | None => throw (Error "User not found")
     | Some _ =>
         ret (mkEnvelope 200 true (Some (Text "User deleted successfully")) None
                None None None None None)
     end)
    (λ error, ret (failure_with_error 500 "Internal Server Error" error)).
End Resolvers.

End Gen1.

(** More sample data. *)
Definition bobContext : Context := mkContext "k.b2" (Some bob).

(** ** Small checks of the helpers *)

Example split_header : split " "%char "Bearer abc.def" = ["Bearer"; "abc.def"].
Proof. reflexivity. Qed.

Example split_trailing_space : split " "%char "Bearer " = ["Bearer"; ""].
Proof. reflexivity. Qed.

Example split_one_word : split " "%char "Bearer" !! 1%nat = None.
Proof. reflexivity. Qed.

Example ceil_five_over_two : Math_ceil_div 5 2 = 3.
Proof. reflexivity. Qed.

Example ceil_exact : Math_ceil_div 20 10 = 2.
Proof. reflexivity. Qed.

Example login_bob :
  @handleRequest sampleEnv userSchema (mkRequest (Some "Bearer"))
    (OpLoginUser "bob@example.org" "pw-bob") sampleWorld
  = (Data (mkEnvelope 200 true (Some (Text "Login successfully")) None None
             (Some bob) (Some "k.b2") (Some bob) None), sampleWorld).
Proof. vm_compute. reflexivity. Qed.

Example login_wrong_password :
  (@loginUser sampleEnv userSchema "bob@example.org" "guess" sampleWorld).1
  = Ok (failure_500 (Error "Invalid password")).
Proof. vm_compute. reflexivity. Qed.

Example bob_is_forbidden :
  @handleRequest sampleEnv userSchema (mkRequest (Some "Bearer k.b2"))
    (OpDeleteUser "a1") sampleWorld
  = (Data forbidden, sampleWorld).
Proof. vm_compute. reflexivity. Qed.

Example alice_deletes_bob :
  @handleRequest sampleEnv userSchema (mkRequest (Some "Bearer k.a1"))
    (OpDeleteUser "b2") sampleWorld
  = (Data (mkEnvelope 200 true (Some (Text "User deleted successfully")) None None
             (Some bob) None None None),
     @mkWorld sampleEnv [alice] 67%nat 1000).
Proof. vm_compute. reflexivity. Qed.

(** ** The context function *)

Lemma truthy_str_Some (s : string) : s ≠ "" → truthy_str (Some s) = true.
Proof.
  intros Hs. unfold truthy_str.
  destruct (String.eqb_spec s "") as [->|_]; [by destruct Hs | reflexivity].
Qed.

(** When the header carries a non-empty second word, the context function
    is the verification of that word. *)
Lemma context_with_token `{E : Env} (req : Request) (header tok : string) (w : World) :
  authorization req = Some header →
  split " "%char header !! 1%nat = Some tok →
  tok ≠ "" →
  context req w =
    match jwt_verify tok JWT_SECRET (now w) with
    | Ok (inr obj) =>
        match obj !! "userId" with
        | Some userId =>
            match castObjectId userId with
            | Some oid => (Ok (Some (mkContext tok (lookup_id oid (users w)))), w)
            | None => (Throw invalid_token, w)
            end
        | None => (Throw invalid_token, w)
        end
    | _ => (Throw invalid_token, w)
    end.
Proof.
  intros Hauth Htok Hne. unfold context. rewrite Hauth, Htok.
  rewrite (truthy_str_Some tok Hne).
  unfold try_catch_eff, bind, throw, ret, findById.
  destruct (jwt_verify tok JWT_SECRET (now w)) as [[s|obj]|e]; try reflexivity.
  destruct (obj !! "userId") as [userId|]; try reflexivity.
  destruct (castObjectId userId); reflexivity.
Qed.

(** C1: a request whose authorization header carries a token that
    [jwt.verify] refuses (malformed, signed with another key, expired), or
    whose decoded payload is a bare string or an object without [userId],
    is rejected by the context function with the GraphQLError
    "Invalid token" (code INVALID_TOKEN, http status 401); the server
    answers with that failure, calls no resolver, and the world is as it
    was. *)
Theorem context_rejects_invalid_token `{E : Env} (M : UserModel) (req : Request)
    (header tok : string) (op : Operation) (w : World) :
  authorization req = Some header →
  split " "%char header !! 1%nat = Some tok →
  tok ≠ "" →
  ((∃ e, jwt_verify tok JWT_SECRET (now w) = Throw e)
   ∨ (∃ s, jwt_verify tok JWT_SECRET (now w) = Ok (inl s))
   ∨ (∃ obj, jwt_verify tok JWT_SECRET (now w) = Ok (inr obj)
             ∧ obj !! "userId" = None)) →
  context req w = (Throw (GraphQLError "Invalid token" "INVALID_TOKEN" 401), w)
  ∧ handleRequest M req op w
    = (ContextCreationFailed (GraphQLError "Invalid token" "INVALID_TOKEN" 401) 401, w).
Proof.
  intros Hauth Htok Hne Hbad.
  assert (Hctx : context req w = (Throw invalid_token, w)).
  { rewrite (context_with_token req header tok w Hauth Htok Hne).
    destruct Hbad as [[e ->]|[[s ->]|(obj & -> & ->)]]; reflexivity. }
  split; [exact Hctx|].
  unfold handleRequest. rewrite Hctx. reflexivity.
Qed.

Lemma context_rejects_invalid_token_witness :
  @handleRequest sampleEnv userSchema (mkRequest (Some "Bearer x.a1"))
    (OpDeleteUser "b2") sampleWorld
  = (ContextCreationFailed (GraphQLError "Invalid token" "INVALID_TOKEN" 401) 401,
     sampleWorld).
Proof.
  apply (@context_rejects_invalid_token sampleEnv userSchema
           (mkRequest (Some "Bearer x.a1")) "Bearer x.a1" "x.a1"
           (OpDeleteUser "b2") sampleWorld).
  - reflexivity.
  - reflexivity.
  - discriminate.
  - left. exists JsonWebTokenError. reflexivity.
Defined.

(** A header without a second word, or with an empty one, gives the
    [undefined] context: the request goes on to its resolver. *)
Lemma context_without_token `{E : Env} (header : string) (w : World) :
  truthy_str (split " "%char header !! 1%nat) = false →
  context (mkRequest (Some header)) w = (Ok None, w).
Proof.
  intros Hfalsy. unfold context. simpl.
  destruct (split " "%char header !! 1%nat) as [tok|] eqn:Htok; [|reflexivity].
  rewrite Hfalsy. reflexivity.
Qed.

(** With such a header [loginUser] runs and its envelope is the answer. *)
Lemma loginUser_runs_without_token `{E : Env} (M : UserModel) (header : string)
    (email password : string) (w : World) :
  truthy_str (split " "%char header !! 1%nat) = false →
  ∃ env, handleRequest M (mkRequest (Some header)) (OpLoginUser email password) w
         = (Data env, w)
         ∧ loginUser M email password w = (Ok env, w).
Proof.
  intros Hfalsy. unfold handleRequest.
  rewrite (context_without_token header w Hfalsy). simpl.
  unfold loginUser, try_catch_eff, bind, findOne_email, throw, ret, lift.
  destruct (List.find _ (users w)) as [u|]; [|eauto].
  destruct (comparePassword u password) as [[|]|e]; simpl; eauto.
  destruct (generateAuthToken M u (now w)); eauto.
Qed.

(** C5, on the code: a request without an authorization header makes the
    context function throw the TypeError of [undefined.split]; the server
    answers with a context failure of status 500 and [loginUser] is not
    called, whatever its arguments. *)
Theorem loginUser_without_header_is_rejected `{E : Env} (M : UserModel)
    (email password : string) (w : World) :
  context (mkRequest None) w = (Throw (TypeError "split"), w)
  ∧ handleRequest M (mkRequest None) (OpLoginUser email password) w
    = (ContextCreationFailed (TypeError "split") 500, w).
Proof. split; reflexivity. Qed.

(** The gate of the five guarded resolvers reads [user.role]; with the
    [null] user of an unknown [userId] that read throws inside the [try],
    and the [catch] turns it into the status 500 envelope. *)
Lemma gated_resolvers_null_user `{E : Env} (M : UserModel) (tok : string)
    (ID : string) (pagination : option PaginationInput) (sort : option SortInput)
    (userInput : option UserInput) (update : option UpdateUserInput) (w : World) :
  let ctx := Some (mkContext tok None) in
  getUser ID ctx w
    = (Ok (failure_with_error 500 "Server Error" (TypeError "role")), w)
  ∧ getUsers pagination sort ctx w
    = (Ok (failure_with_error 500 "Server Error" (TypeError "role")), w)
  ∧ createUser M userInput ctx w
    = (Ok (failure_with_error 500 "Internal Server Error" (TypeError "role")), w)
  ∧ updateUser M ID update ctx w = (Ok (failure_500 (TypeError "role")), w)
  ∧ deleteUser ID ctx w = (Ok (failure_500 (TypeError "role")), w).
Proof. repeat split; reflexivity. Qed.

(** C4, on the code: a request with a well-signed token whose [userId]
    names no stored account reaches the resolvers with a [null] user, and
    each of the five guarded operations answers with an envelope of status
    500, not with an authorization failure. *)
Theorem unknown_account_gets_server_error :
  let req := mkRequest (Some "Bearer k.zz") in
  let answer op := (@handleRequest sampleEnv userSchema req op sampleWorld).1 in
  @context sampleEnv req sampleWorld = (Ok (Some (mkContext "k.zz" None)), sampleWorld)
  ∧ answer (OpGetUser "b2")
    = Data (failure_with_error 500 "Server Error" (TypeError "role"))
  ∧ answer (OpGetUsers None None)
    = Data (failure_with_error 500 "Server Error" (TypeError "role"))
  ∧ answer (OpCreateUser (Some carol_input))
    = Data (failure_with_error 500 "Internal Server Error" (TypeError "role"))
  ∧ answer (OpUpdateUser "b2" (Some (mkUpdateUserInput (Some "bob") (Some "bob@example.org") (Some "9 New St"))))
    = Data (failure_500 (TypeError "role"))
  ∧ answer (OpDeleteUser "b2") = Data (failure_500 (TypeError "role")).
Proof. repeat split; vm_compute; reflexivity. Qed.

(** ** Password hashing *)

Lemma preSave_modified `{E : Env} (d : Document) (P : string) (r : Rng) :
  isModified "password" d = true →
  password (fields d) = Some P →
  preSave d r
  = (Ok (set_password (bcrypt_hash P (bcrypt_genSalt 10 r).1) d),
     (bcrypt_genSalt 10 r).2).
Proof.
  intros Hmod HP. unfold preSave. rewrite Hmod, HP. simpl.
  destruct (bcrypt_genSalt 10 r) as [salt r']. reflexivity.
Qed.

(** The hook leaves a document alone when its password was not assigned. *)
Lemma preSave_unmodified `{E : Env} (d : Document) (r : Rng) :
  isModified "password" d = false → preSave d r = (Ok d, r).
Proof. intros Hmod. unfold preSave. rewrite Hmod. reflexivity. Qed.

Lemma sample_bcrypt_laws : BcryptLaws sampleEnv.
Proof.
  split.
  - intros p rounds r. simpl. apply String.eqb_refl.
  - intros p rounds r1 r2. simpl. unfold sample_hash. simpl.
    intros Heq. injection Heq as ->. reflexivity.
Qed.

Lemma counter_drop_salt (n : nat) (p : string) :
  drop_salt (counter_hash p (counter_salt n)) = String "$" p.
Proof. induction n as [|n IH]; [reflexivity|exact IH]. Qed.

Lemma counter_hash_inj (p : string) (n m : nat) :
  counter_hash p (counter_salt n) = counter_hash p (counter_salt m) →
  counter_salt n = counter_salt m.
Proof.
  revert m. induction n as [|n IH]; intros [|m]; simpl;
    try reflexivity; try discriminate.
  intros [= Heq]. f_equal. by apply IH.
Qed.

Lemma counter_salt_inj (n m : nat) : counter_salt n = counter_salt m → n = m.
Proof.
  revert m. induction n as [|n IH]; intros [|m]; simpl;
    try reflexivity; try discriminate.
  intros [= Heq]. f_equal. by apply IH.
Qed.

Lemma counter_bcrypt_laws : BcryptLaws counterEnv.
Proof.
  split.
  - intros p rounds r. simpl. unfold counter_compare.
    rewrite counter_drop_salt. simpl. apply String.eqb_refl.
  - intros p rounds r1 r2. simpl. apply counter_hash_inj.
Qed.

Lemma counter_entropy_grows (a b : nat) :
  rtc (@entropy_step counterEnv) a b → (a ≤ b)%nat.
Proof.
  induction 1 as [a|a b c Hstep _ IH]; [lia|].
  destruct Hstep as [[rounds ->]| ->]; simpl in IH; lia.
Qed.

Lemma counter_salt_laws : SaltLaws counterEnv.
Proof.
  split. intros rounds r r' Hlater Heq. simpl in *.
  apply counter_entropy_grows in Hlater.
  apply counter_salt_inj in Heq. lia.
Qed.

(** C2: the pre-save hook replaces a newly set plaintext [P] by a hash
    against which [comparePassword] accepts [P]; run again on the same
    plaintext, with the entropy the first run left or with any entropy
    later on the stream, it stores a different hash, because it draws a
    new salt each time and salts do not repeat. *)
Theorem hash_then_compare `{E : Env} `{!BcryptLaws E} `{!SaltLaws E} (d : Document)
    (P : string) (r r' : Rng) :
  isModified "password" d = true →
  password (fields d) = Some P →
  rtc entropy_step (preSave d r).2 r' →
  ∃ d1 r1 d2 r2 h1 h2,
    preSave d r = (Ok d1, r1) ∧ preSave d r' = (Ok d2, r2)
    ∧ password (fields d1) = Some h1 ∧ password (fields d2) = Some h2
    ∧ comparePassword (fields d1) P = Ok true
    ∧ comparePassword (fields d2) P = Ok true
    ∧ h1 ≠ h2.
Proof.
  intros Hmod HP Hlater.
  pose proof (preSave_modified d P r Hmod HP) as H1.
  pose proof (preSave_modified d P r' Hmod HP) as H2.
  rewrite H1 in Hlater. simpl in Hlater.
  eexists _, _, _, _, _, _.
  split; [exact H1|]. split; [exact H2|].
  split; [reflexivity|]. split; [reflexivity|].
  unfold comparePassword. simpl.
  rewrite !compare_hash. split; [reflexivity|]. split; [reflexivity|].
  intros Heq. apply (salt_fresh 10 r r' Hlater).
  symmetry. by apply (hash_salt_inj P).
Qed.

Lemma hash_then_compare_witness :
  ∃ d1 r1 d2 r2 h1 h2,
    @preSave counterEnv (new_User "idC" carol_input) 3%nat = (Ok d1, r1)
    ∧ @preSave counterEnv (new_User "idC" carol_input) 5%nat = (Ok d2, r2)
    ∧ password (fields d1) = Some h1 ∧ password (fields d2) = Some h2
    ∧ @comparePassword counterEnv (fields d1) "pw-carol" = Ok true
    ∧ @comparePassword counterEnv (fields d2) "pw-carol" = Ok true
    ∧ h1 ≠ h2.
Proof.
  apply (@hash_then_compare counterEnv counter_bcrypt_laws counter_salt_laws
           (new_User "idC" carol_input) "pw-carol" 3%nat 5%nat).
  - vm_compute. reflexivity.
  - reflexivity.
  - apply rtc_once. right. reflexivity.
Defined.

(** The two hashes of that run. *)
Example counter_hashes :
  (@preSave counterEnv (new_User "idC" carol_input) 3%nat).1
    = Ok (set_password "sss$pw-carol" (new_User "idC" carol_input))
  ∧ (@preSave counterEnv (new_User "idC" carol_input) 5%nat).1
    = Ok (set_password "sssss$pw-carol" (new_User "idC" carol_input)).
Proof. split; vm_compute; reflexivity. Qed.

(** ** createUser *)

Lemma isModified_password_new_User (oid : string) (ui : UserInput) :
  isModified "password" (new_User oid ui) = true.
Proof. vm_compute. reflexivity. Qed.

(** C3, on the code: an Admin, alice, creates the account of carol, whose
    email is not taken; the call succeeds with status 201 and the account
    of carol is stored, but the [data] of the envelope is the account of
    the caller, alice, and not the account that was created. *)
Theorem createUser_returns_caller :
  let result := @createUser sampleEnv userSchema (Some carol_input)
                  (Some aliceContext) sampleWorld in
  let carol := mkUser "idC" (Some "carol") (Some "carol@example.org")
                 (Some "Dpw-carol") (Some "3 High St") "User" in
  result.1 = Ok (mkEnvelope 201 true (Some (Text "User created successfully")) None
                   (Some (OneUser alice)) None None None None)
  ∧ users result.2 = [alice; bob; carol]
  ∧ OneUser alice ≠ OneUser carol.
Proof. repeat split; [vm_compute; reflexivity .. | discriminate]. Qed.

(** Whatever the input, the [data] of a status 201 envelope of
    [createUser] is the [user] of the context. *)
Lemma createUser_created_payload `{E : Env} (M : UserModel)
    (userInput : option UserInput) (c : Context) (w w' : World) (env : Envelope) :
  createUser M userInput (Some c) w = (Ok env, w') →
  status env = 201 →
  data env = OneUser <$> ctx_user c.
Proof.
  unfold createUser, try_catch_eff, bind, lift, throw, ret.
  destruct (read_role (ctx_user c)) as [r|e]; simpl.
  - destruct (negb (String.eqb r "Admin")).
    + intros [= <- _]. discriminate.
    + destruct userInput as [ui|]; simpl.
      * destruct (newObjectId (entropy w)) as [oid r'].
        destruct (save M (new_User oid ui) _) as [[d|e] w1].
        -- by intros [= <- _].
        -- destruct (_ && _); intros [= <- _]; discriminate.
      * intros [= <- _]. discriminate.
  - destruct (_ && _); intros [= <- _]; discriminate.
Qed.

Lemma existsb_elem_of {A} (f : A → bool) (x : A) (l : list A) :
  x ∈ l → f x = true → existsb f l = true.
Proof.
  intros Hin Hf. apply existsb_exists. exists x.
  split; [by apply list_elem_of_In | exact Hf].
Qed.

(** C7: with the model of the TypeScript source, whose [email] index is
    unique, an Admin's [createUser] with username, password and address
    given and an email that a stored account already has returns the
    status 400 envelope "Email already exists", built from the driver's
    error 11000, and leaves the collection exactly as it was. *)
Theorem createUser_duplicate_email `{E : Env} (ui : UserInput) (c : Context)
    (admin other : User) (e p : string) (w : World) :
  ctx_user c = Some admin →
  role admin = "Admin" →
  truthy_str (in_username ui) = true →
  truthy_str (in_address ui) = true →
  in_password ui = Some p →
  in_email ui = Some e →
  e ≠ "" →
  other ∈ users w →
  email other = Some e →
  ∃ w', createUser userSchema (Some ui) (Some c) w
        = (Ok (mkEnvelope 400 false (Some (Text "Email already exists"))
                 (Some (LibraryText (MongoServerError 11000)))
                 None None None None None), w')
        ∧ users w' = users w.
Proof.
  intros Hc Hrole Hname Haddr Hp Hmail He Hin Hother.
  unfold createUser, try_catch_eff, bind, lift, throw, ret.
  rewrite Hc. simpl. rewrite Hrole. simpl.
  destruct (newObjectId (entropy w)) as [oid r'].
  unfold save. simpl users. simpl entropy. simpl now.
  assert (Hval : validate userSchema (new_User oid ui) = Ok ()).
  { unfold validate, required_missing. simpl.
    rewrite Hname, Haddr, Hmail, (truthy_str_Some e He). reflexivity. }
  rewrite Hval.
  assert (Hdup : ∀ u, email u = Some e →
            insertOne userSchema u (users w) = Throw (MongoServerError 11000)).
  { intros u Hu. unfold insertOne. destruct (existsb _ (users w)); [reflexivity|].
    simpl. rewrite (existsb_elem_of _ other); [reflexivity|exact Hin|].
    apply bool_decide_eq_true. congruence. }
  unfold preSave. rewrite isModified_password_new_User. simpl.
  destruct (bcrypt_genSalt 10 r') as [salt r''].
  rewrite Hp. simpl. rewrite Hdup by exact Hmail.
  eexists. split; reflexivity.
Qed.

Lemma createUser_duplicate_email_witness :
  ∃ w', @createUser sampleEnv userSchema
          (Some (mkUserInput (Some "robert") (Some "bob@example.org") (Some "pw")
                   (Some "4 Low St")))
          (Some aliceContext) sampleWorld
        = (Ok (mkEnvelope 400 false (Some (Text "Email already exists"))
                 (Some (LibraryText (MongoServerError 11000)))
                 None None None None None), w')
        ∧ users w' = [alice; bob].
Proof.
  apply (@createUser_duplicate_email sampleEnv
           (mkUserInput (Some "robert") (Some "bob@example.org") (Some "pw")
              (Some "4 Low St"))
           aliceContext alice bob "bob@example.org" "pw" sampleWorld).
  - reflexivity.
  - reflexivity.
  - reflexivity.
  - reflexivity.
  - reflexivity.
  - reflexivity.
  - discriminate.
  - apply list_elem_of_In. simpl. right. left. reflexivity.
  - reflexivity.
Defined.

(** With the older compiled copy of the model, which declares no unique
    index, the same call stores a second account with that email. *)
Lemma createUser_duplicate_email_dist :
  let result := @createUser sampleEnv userSchema_dist
                  (Some (mkUserInput (Some "robert") (Some "bob@example.org")
                           (Some "pw") (Some "4 Low St")))
                  (Some aliceContext) sampleWorld in
  (∃ env, result.1 = Ok env ∧ status env = 201)
  ∧ length (users result.2) = 3%nat.
Proof. split; [eexists; split|]; vm_compute; reflexivity. Qed.

(** ** getUsers *)

(** [Math.ceil(n / d)] is the least number of pages of [d] items that
    hold [n] items. *)
Lemma Math_ceil_div_spec (n d : Z) :
  0 < d → (Math_ceil_div n d - 1) * d < n ≤ Math_ceil_div n d * d.
Proof.
  intros Hd. unfold Math_ceil_div.
  pose proof (Z.div_mod (- n) d ltac:(lia)) as Hdm.
  pose proof (Z.mod_pos_bound (- n) d Hd) as Hm.
  nia.
Qed.

(** C6: for an Admin, with a positive [limit] when it is given and a
    [page] of at least 1 when it is given, and no sort, [getUsers] skips
    [(page - 1) * limit] accounts ([limit] counting as 0 when absent, and
    nothing skipped without a page), returns at most [limit] of the
    accounts that follow, in the order of the collection, and reports all
    the accounts as [totalUsers], [page] as [currentPage] and as
    [totalPages] the ceiling of [totalUsers] over [limit], or over 10
    without a limit.  With limit 2 and page 2 over five accounts the data
    are the third and the fourth and the page info is 5, 3, 2. *)
Theorem getUsers_pagination `{E : Env} (c : Context) (admin : User) :
  ctx_user c = Some admin →
  role admin = "Admin" →
  (∀ (lim pg : option Z) (w : World),
     (∀ l, lim = Some l → 0 < l) →
     (∀ p, pg = Some p → 1 ≤ p) →
     let offset := match pg with Some p => (p - 1) * default 0 lim | None => 0 end in
     let n := Z.of_nat (length (users w)) in
     ∃ found pages,
       getUsers (Some (mkPaginationInput lim pg)) None (Some c) w
       = (Ok (mkEnvelope 200 true None None (Some (ManyUsers found)) None None None
                (Some (mkPageInfo n pages pg))), w)
       ∧ found = match lim with
                 | Some l => take (Z.to_nat l) (drop (Z.to_nat offset) (users w))
                 | None => drop (Z.to_nat offset) (users w)
                 end
       ∧ (∀ l, lim = Some l → Z.of_nat (length found) ≤ l)
       ∧ (pages - 1) * default 10 lim < n ≤ pages * default 10 lim)
  ∧ (∀ (a1 a2 a3 a4 a5 : User) (r : Rng) (t : Z),
       getUsers (Some (mkPaginationInput (Some 2) (Some 2))) None (Some c)
         (mkWorld _ [a1; a2; a3; a4; a5] r t)
       = (Ok (mkEnvelope 200 true None None (Some (ManyUsers [a3; a4])) None None None
                (Some (mkPageInfo 5 3 (Some 2)))),
          mkWorld _ [a1; a2; a3; a4; a5] r t)).
Proof.
  intros Hc Hrole. split.
  - intros lim pg w Hlim Hpg offset n.
    unfold getUsers, try_catch_eff, bind, lift, throw, ret, exec, countDocuments.
    rewrite Hc. simpl. rewrite Hrole. simpl.
    subst offset n.
    destruct lim as [l|]; destruct pg as [p|]; simpl.
    + specialize (Hlim l eq_refl). specialize (Hpg p eq_refl).
      destruct (Z.eqb_spec l 0); [lia|]. destruct (Z.eqb_spec p 0); [lia|]. simpl.
      destruct (Z.ltb_spec ((p - 1) * l) 0); [nia|]. simpl.
      rewrite Zabs2Nat.abs_nat_nonneg by lia.
      eexists _, _. split; [reflexivity|]. split; [reflexivity|]. split.
      * intros l' [= <-]. rewrite length_take. lia.
      * apply Math_ceil_div_spec. lia.
    + specialize (Hlim l eq_refl).
      destruct (Z.eqb_spec l 0); [lia|]. simpl.
      rewrite Zabs2Nat.abs_nat_nonneg by lia.
      eexists _, _. split; [reflexivity|]. split; [reflexivity|]. split.
      * intros l' [= <-]. rewrite length_take. lia.
      * apply Math_ceil_div_spec. lia.
    + specialize (Hpg p eq_refl).
      destruct (Z.eqb_spec p 0); [lia|]. simpl.
      replace ((p - 1) * 0) with 0 by lia. simpl.
      eexists _, _. split; [reflexivity|]. split; [reflexivity|]. split.
      * intros l' [=].
      * apply Math_ceil_div_spec. lia.
    + eexists _, _. split; [reflexivity|]. split; [reflexivity|]. split.
      * intros l' [=].
      * apply Math_ceil_div_spec. lia.
  - intros a1 a2 a3 a4 a5 r t.
    unfold getUsers, try_catch_eff, bind, lift, throw, ret, exec, countDocuments.
    rewrite Hc. simpl. rewrite Hrole. reflexivity.
Qed.

Lemma getUsers_pagination_witness :
  let five := sample_users ["ann"; "ben"; "cat"; "dan"; "eve"] in
  let w := @mkWorld sampleEnv five 0%nat 0 in
  let call := @getUsers sampleEnv (Some (mkPaginationInput (Some 2) (Some 2))) None
                (Some aliceContext) w in
  call = (Ok (mkEnvelope 200 true None None
                (Some (ManyUsers (sample_users ["cat"; "dan"]))) None None None
                (Some (mkPageInfo 5 3 (Some 2)))), w)
  ∧ ∃ found pages,
      call = (Ok (mkEnvelope 200 true None None (Some (ManyUsers found)) None None None
                    (Some (mkPageInfo 5 pages (Some 2)))), w)
      ∧ found = take 2 (drop 2 five)
      ∧ (∀ l, Some 2 = Some l → Z.of_nat (length found) ≤ l)
      ∧ (pages - 1) * 2 < 5 ≤ pages * 2.
Proof.
  split.
  - apply (proj2 (@getUsers_pagination sampleEnv aliceContext alice eq_refl eq_refl)).
  - apply (proj1 (@getUsers_pagination sampleEnv aliceContext alice eq_refl eq_refl)
             (Some 2) (Some 2)
             (@mkWorld sampleEnv (sample_users ["ann"; "ben"; "cat"; "dan"; "eve"])
                0%nat 0)).
    + intros l [= <-]. lia.
    + intros p [= <-]. lia.
Defined.

(** ** Lookups that find nothing *)

Lemma delete_first_absent (oid : string) (us : list User) :
  lookup_id oid us = None → delete_first oid us = us.
Proof.
  unfold lookup_id. induction us as [|u us IH]; simpl; [reflexivity|].
  destruct (has_id oid u); [discriminate|].
  intros Hnone. by rewrite IH.
Qed.

Lemma World_eta `{E : Env} (w : World) : mkWorld _ (users w) (entropy w) (now w) = w.
Proof. by destruct w. Qed.

(** C8, on the code: alice is an Admin and no account has the id "zz";
    [getUser], [updateUser] and [deleteUser] at that id do not return an
    envelope of status 404. *)
Lemma missing_account_is_not_404 :
  let ctx := Some aliceContext in
  let update := Some (mkUpdateUserInput (Some "zed") (Some "zed@example.org")
                        (Some "9 New St")) in
  lookup_id "zz" (users sampleWorld) = None
  ∧ ¬ (∃ env, (@getUser sampleEnv "zz" ctx sampleWorld).1 = Ok env
              ∧ status env = 404)
  ∧ ¬ (∃ env, (@updateUser sampleEnv userSchema "zz" update ctx sampleWorld).1 = Ok env
              ∧ status env = 404)
  ∧ ¬ (∃ env, (@deleteUser sampleEnv "zz" ctx sampleWorld).1 = Ok env
              ∧ status env = 404).
Proof.
  repeat split; try reflexivity;
    intros (env & Henv & Hstatus); vm_compute in Henv;
    injection Henv as <-; discriminate.
Qed.

(** C8, amended: called by an Admin at an id where no account is stored,
    [getUser], [updateUser] and [deleteUser] each return the failure
    envelope of status 500 with [success] false, made from the error
    "User not found" (or from the cast error of an id that is no
    ObjectId), and leave the world as it was. *)
Theorem missing_account_is_server_error `{E : Env} (M : UserModel) (ID : string)
    (userInput : option UpdateUserInput) (c : Context) (admin : User) (w : World) :
  ctx_user c = Some admin →
  role admin = "Admin" →
  (∀ oid, castObjectId (JStr ID) = Some oid → lookup_id oid (users w) = None) →
  getUser ID (Some c) w
    = (Ok (mkEnvelope 500 false (Some (Text "Server Error"))
             (Some (error_message (lookup_failure ID))) None None None None None), w)
  ∧ updateUser M ID userInput (Some c) w
    = (Ok (mkEnvelope 500 false (Some (error_message (lookup_failure ID)))
             None None None None None None), w)
  ∧ deleteUser ID (Some c) w
    = (Ok (mkEnvelope 500 false (Some (error_message (lookup_failure ID)))
             None None None None None None), w).
Proof.
  intros Hc Hrole Habsent.
  unfold getUser, updateUser, deleteUser, lookup_failure.
  unfold try_catch_eff, bind, lift, throw, ret, findById, findByIdAndDelete.
  rewrite Hc. simpl. rewrite Hrole. simpl.
  destruct (castObjectId (JStr ID)) as [oid|]; [|repeat split; reflexivity].
  rewrite (Habsent oid eq_refl), (delete_first_absent oid _ (Habsent oid eq_refl)).
  rewrite World_eta. repeat split; reflexivity.
Qed.

Lemma missing_account_is_server_error_witness :
  let not_found := mkEnvelope 500 false (Some (Text "User not found"))
                     None None None None None None in
  @getUser sampleEnv "zz" (Some aliceContext) sampleWorld
    = (Ok (mkEnvelope 500 false (Some (Text "Server Error"))
             (Some (Text "User not found")) None None None None None), sampleWorld)
  ∧ @updateUser sampleEnv userSchema "zz" None (Some aliceContext) sampleWorld
    = (Ok not_found, sampleWorld)
  ∧ @deleteUser sampleEnv "zz" (Some aliceContext) sampleWorld
    = (Ok not_found, sampleWorld).
Proof.
  apply (@missing_account_is_server_error sampleEnv userSchema "zz" None
           aliceContext alice sampleWorld).
  - reflexivity.
  - reflexivity.
  - intros oid [= <-]. reflexivity.
Defined.

(** ** updateUser *)

Lemma same_credentials_refl (us : list User) : Forall2 same_credentials us us.
Proof. induction us; constructor; [by repeat split | assumption]. Qed.

Lemma updated_document_fields (u : User) (ui : UpdateUserInput) :
  fields (updated_document u ui)
  = mkUser (_id u) (up_username ui) (up_email ui) (password u) (up_address ui) (role u).
Proof. reflexivity. Qed.

Lemma updated_document_password_unmodified (u : User) (ui : UpdateUserInput) :
  isModified "password" (updated_document u ui) = false.
Proof.
  unfold updated_document, isModified, assign_address, assign_email,
    assign_username, mark, loaded. simpl.
  destruct (bool_decide (address u = up_address ui));
    destruct (bool_decide (email u = up_email ui));
    destruct (bool_decide (username u = up_username ui));
    vm_compute; reflexivity.
Qed.

Lemma updated_document_isNew (u : User) (ui : UpdateUserInput) :
  isNew (updated_document u ui) = false.
Proof. reflexivity. Qed.

Lemma lookup_id_has_id (oid : string) (us : list User) (u : User) :
  lookup_id oid us = Some u → _id u = oid.
Proof.
  unfold lookup_id. intros Hfind. apply find_some in Hfind as [_ Hid].
  unfold has_id in Hid. by apply bool_decide_eq_true in Hid.
Qed.

Lemma replace_first_same_credentials (u u' : User) (us : list User) :
  lookup_id (_id u') us = Some u →
  password u' = password u →
  role u' = role u →
  Forall2 same_credentials us (replace_first u' us).
Proof.
  unfold lookup_id. intros Hfind Hpw Hrole.
  induction us as [|x us IH]; simpl in *; [constructor|].
  destruct (has_id (_id u') x) eqn:Hx.
  - injection Hfind as ->. constructor; [|apply same_credentials_refl].
    unfold has_id in Hx. apply bool_decide_eq_true in Hx. by repeat split.
  - constructor; [by repeat split | by apply IH].
Qed.

(** The collection after the save of an updated document. *)
Lemma save_updated_document `{E : Env} (M : UserModel) (u : User)
    (ui : UpdateUserInput) (w : World) :
  lookup_id (_id u) (users w) = Some u →
  Forall2 same_credentials (users w) (users (save M (updated_document u ui) w).2).
Proof.
  intros Hfind. unfold save.
  destruct (validate M (updated_document u ui)); [|apply same_credentials_refl].
  rewrite preSave_unmodified by apply updated_document_password_unmodified.
  rewrite updated_document_isNew.
  destruct (updateOne M (updated_document u ui) (users w)) as [us|e] eqn:Hupd;
    simpl; [|apply same_credentials_refl].
  unfold updateOne in Hupd.
  destruct (negb (existsb _ (users w))); [discriminate|].
  destruct (_ && _); [discriminate|].
  injection Hupd as <-.
  by apply (replace_first_same_credentials u).
Qed.

(** C9: whoever calls [updateUser], with whatever id and input, the
    collection afterwards holds the same accounts in the same order, each
    with the [_id], the stored password and the role it had before; only
    the other three paths can differ. *)
Theorem updateUser_keeps_password_and_role `{E : Env} (M : UserModel) (ID : string)
    (userInput : option UpdateUserInput) (ctx : option Context) (w : World) :
  Forall2 same_credentials (users w) (users (updateUser M ID userInput ctx w).2).
Proof.
  unfold updateUser. destruct ctx as [c|]; [|apply same_credentials_refl].
  unfold try_catch_eff, bind, lift, throw, ret, findById.
  destruct (read_role (ctx_user c)) as [r|e]; simpl; [|apply same_credentials_refl].
  destruct (negb (String.eqb r "Admin")); simpl; [apply same_credentials_refl|].
  destruct (castObjectId (JStr ID)) as [oid|]; simpl; [|apply same_credentials_refl].
  destruct (lookup_id oid (users w)) as [u|] eqn:Hfind; simpl;
    [|apply same_credentials_refl].
  destruct userInput as [ui|]; simpl; [|apply same_credentials_refl].
  pose proof (lookup_id_has_id oid (users w) u Hfind) as <-.
  pose proof (save_updated_document M u ui w Hfind) as Hsave.
  fold (updated_document u ui).
  destruct (save M (updated_document u ui) w) as [[saved|e] w']; exact Hsave.
Qed.

(** C10, on the code: alice, an Admin, updates bob and leaves [username]
    out of the input.  The save fails the schema validation of the
    required path, the envelope has status 500, and the stored account of
    bob keeps its username and every other value: the stored username is
    not overwritten with the missing value. *)
Lemma omitted_username_is_not_stored :
  let input := mkUpdateUserInput None (Some "bob@new.example") (Some "9 New St") in
  let result := @updateUser sampleEnv userSchema "b2" (Some input)
                  (Some aliceContext) sampleWorld in
  result.1 = Ok (failure_500 (ValidationError ["username"]))
  ∧ lookup_id "b2" (users result.2) = Some bob
  ∧ username <$> lookup_id "b2" (users result.2) ≠ Some (up_username input).
Proof. repeat split; [vm_compute; reflexivity .. | vm_compute; discriminate]. Qed.

Lemma required_missing_None (path : string) : required_missing path None = [path].
Proof. reflexivity. Qed.

(** C10, amended: [updateUser] assigns [username], [email] and [address]
    from the input to the loaded document unconditionally, so an omitted
    field unsets a required path of that document: called by an Admin on a
    stored account with any of the three left out, the save fails the
    validation, which names every omitted path, the envelope has status
    500 and the world, with the stored account, is as it was; the fields
    that were supplied are not stored either. *)
Theorem updateUser_omitted_field `{E : Env} (M : UserModel) (ID oid : string)
    (ui : UpdateUserInput) (c : Context) (admin target : User) (w : World) :
  ctx_user c = Some admin →
  role admin = "Admin" →
  castObjectId (JStr ID) = Some oid →
  lookup_id oid (users w) = Some target →
  up_username ui = None ∨ up_email ui = None ∨ up_address ui = None →
  ∃ paths,
    updateUser M ID (Some ui) (Some c) w
    = (Ok (mkEnvelope 500 false (Some (LibraryText (ValidationError paths)))
             None None None None None None), w)
    ∧ validate M (updated_document target ui) = Throw (ValidationError paths)
    ∧ (up_username ui = None → "username" ∈ paths)
    ∧ (up_email ui = None → "email" ∈ paths)
    ∧ (up_address ui = None → "address" ∈ paths).
Proof.
  intros Hc Hrole Hcast Hfind Homitted.
  set (paths := (required_missing "username" (up_username ui)
                 ++ required_missing "email" (up_email ui)
                 ++ (if password_required M
                     then required_missing "password" (password target) else [])
                 ++ required_missing "address" (up_address ui))%list).
  assert (Hin : (up_username ui = None → "username" ∈ paths)
                ∧ (up_email ui = None → "email" ∈ paths)
                ∧ (up_address ui = None → "address" ∈ paths)).
  { subst paths. repeat split; intros ->; rewrite required_missing_None;
      rewrite !elem_of_app, !list_elem_of_singleton; tauto. }
  assert (Hval : validate M (updated_document target ui)
                 = Throw (ValidationError paths)).
  { unfold validate. rewrite updated_document_fields. simpl. fold paths.
    destruct paths as [|p ps] eqn:Hpaths; [|reflexivity].
    destruct Hin as (Hu & He & Ha).
    destruct Homitted as [H|[H|H]];
      [apply Hu in H | apply He in H | apply Ha in H]; by apply elem_of_nil in H. }
  exists paths. split; [|split; [exact Hval | exact Hin]].
  unfold updateUser, try_catch_eff, bind, lift, throw, ret, findById.
  rewrite Hc. simpl. rewrite Hrole. simpl. rewrite Hcast, Hfind.
  fold (updated_document target ui). unfold save. rewrite Hval. reflexivity.
Qed.

Lemma updateUser_omitted_field_witness :
  ∃ paths,
    @updateUser sampleEnv userSchema "b2"
      (Some (mkUpdateUserInput None (Some "bob@new.example") (Some "9 New St")))
      (Some aliceContext) sampleWorld
    = (Ok (mkEnvelope 500 false (Some (LibraryText (ValidationError paths)))
             None None None None None None), sampleWorld)
    ∧ "username" ∈ paths.
Proof.
  destruct (@updateUser_omitted_field sampleEnv userSchema "b2" "b2"
              (mkUpdateUserInput None (Some "bob@new.example") (Some "9 New St"))
              aliceContext alice bob sampleWorld)
    as (paths & Hresult & _ & Hname & _).
  - reflexivity.
  - reflexivity.
  - reflexivity.
  - reflexivity.
  - left. reflexivity.
  - exists paths. split; [exact Hresult | apply Hname; reflexivity].
Defined.

(** ** The role gate *)

Lemma role_not_admin (r : string) : r ≠ "Admin" → negb (String.eqb r "Admin") = true.
Proof. intros Hr. by destruct (String.eqb_spec r "Admin"). Qed.

(** X1: a caller whose account is stored and whose role is not "Admin"
    gets the 403 "Forbidden" envelope from each of the five guarded
    resolvers, whatever the arguments, and the world is left as it was:
    nothing is read from or written to the collection. *)
Theorem non_admin_is_forbidden `{E : Env} (M : UserModel) (c : Context) (caller : User)
    (ID : string) (pagination : option PaginationInput) (sort : option SortInput)
    (userInput : option UserInput) (update : option UpdateUserInput) (w : World) :
  ctx_user c = Some caller →
  role caller ≠ "Admin" →
  getUser ID (Some c) w = (Ok forbidden, w)
  ∧ getUsers pagination sort (Some c) w = (Ok forbidden, w)
  ∧ createUser M userInput (Some c) w = (Ok forbidden, w)
  ∧ updateUser M ID update (Some c) w = (Ok forbidden, w)
  ∧ deleteUser ID (Some c) w = (Ok forbidden, w).
Proof.
  intros Hc Hrole.
  unfold getUser, getUsers, createUser, updateUser, deleteUser.
  unfold try_catch_eff, bind, lift, throw, ret.
  rewrite Hc. simpl. rewrite (role_not_admin _ Hrole).
  repeat split; reflexivity.
Qed.

Lemma non_admin_is_forbidden_witness :
  @getUser sampleEnv "a1" (Some bobContext) sampleWorld = (Ok forbidden, sampleWorld)
  ∧ @getUsers sampleEnv None None (Some bobContext) sampleWorld
    = (Ok forbidden, sampleWorld)
  ∧ @createUser sampleEnv userSchema (Some carol_input) (Some bobContext) sampleWorld
    = (Ok forbidden, sampleWorld)
  ∧ @updateUser sampleEnv userSchema "a1" None (Some bobContext) sampleWorld
    = (Ok forbidden, sampleWorld)
  ∧ @deleteUser sampleEnv "a1" (Some bobContext) sampleWorld
    = (Ok forbidden, sampleWorld).
Proof.
  apply (@non_admin_is_forbidden sampleEnv userSchema bobContext bob "a1" None None
           (Some carol_input) None sampleWorld).
  - reflexivity.
  - discriminate.
Defined.

(** X2: a request whose authorization header has no second word, or an
    empty one, reaches the resolvers with the empty context, which has no
    [user]; each of the five guarded resolvers then throws on [user.role]
    inside its [try] and answers with its status 500 envelope, not with a
    401 or a 403, and the world is as it was. *)
Theorem guarded_request_without_token `{E : Env} (M : UserModel) (header ID : string)
    (pagination : option PaginationInput) (sort : option SortInput)
    (userInput : option UserInput) (update : option UpdateUserInput) (w : World) :
  truthy_str (split " "%char header !! 1%nat) = false →
  let req := mkRequest (Some header) in
  handleRequest M req (OpGetUser ID) w
    = (Data (failure_with_error 500 "Server Error" (TypeError "role")), w)
  ∧ handleRequest M req (OpGetUsers pagination sort) w
    = (Data (failure_with_error 500 "Server Error" (TypeError "role")), w)
  ∧ handleRequest M req (OpCreateUser userInput) w
    = (Data (failure_with_error 500 "Internal Server Error" (TypeError "role")), w)
  ∧ handleRequest M req (OpUpdateUser ID update) w
    = (Data (failure_500 (TypeError "role")), w)
  ∧ handleRequest M req (OpDeleteUser ID) w
    = (Data (failure_500 (TypeError "role")), w).
Proof.
  intros Hfalsy req. subst req. unfold handleRequest.
  rewrite (context_without_token header w Hfalsy).
  repeat split; reflexivity.
Qed.

Lemma guarded_request_without_token_witness :
  let req := mkRequest (Some "Bearer ") in
  @handleRequest sampleEnv userSchema req (OpGetUser "a1") sampleWorld
    = (Data (failure_with_error 500 "Server Error" (TypeError "role")), sampleWorld)
  ∧ @handleRequest sampleEnv userSchema req (OpGetUsers None None) sampleWorld
    = (Data (failure_with_error 500 "Server Error" (TypeError "role")), sampleWorld)
  ∧ @handleRequest sampleEnv userSchema req (OpCreateUser (Some carol_input)) sampleWorld
    = (Data (failure_with_error 500 "Internal Server Error" (TypeError "role")),
       sampleWorld)
  ∧ @handleRequest sampleEnv userSchema req (OpUpdateUser "a1" None) sampleWorld
    = (Data (failure_500 (TypeError "role")), sampleWorld)
  ∧ @handleRequest sampleEnv userSchema req (OpDeleteUser "a1") sampleWorld
    = (Data (failure_500 (TypeError "role")), sampleWorld).
Proof.
  apply (@guarded_request_without_token sampleEnv userSchema "Bearer " "a1" None None
           (Some carol_input) None sampleWorld).
  reflexivity.
Defined.

(** X3: the context function, [getUser], [getUsers] and [loginUser] never
    change the world, whatever the request: neither the collection nor the
    entropy; and [loginUser] always returns an envelope, of status 200 or
    500. *)
Theorem reads_leave_world `{E : Env} (M : UserModel) (req : Request) (ID : string)
    (pagination : option PaginationInput) (sort : option SortInput)
    (ctx : option Context) (email password : string) (w : World) :
  (context req w).2 = w
  ∧ (getUser ID ctx w).2 = w
  ∧ (getUsers pagination sort ctx w).2 = w
  ∧ ∃ env, loginUser M email password w = (Ok env, w)
           ∧ (status env = 200 ∨ status env = 500).
Proof.
  repeat split.
  - unfold context. destruct (authorization req) as [header|]; [|reflexivity].
    destruct (split " "%char header !! 1%nat) as [tok|] eqn:Htok; [|reflexivity].
    destruct (truthy_str (Some tok)); [|reflexivity].
    unfold try_catch_eff, bind, throw, ret, findById.
    destruct (jwt_verify tok JWT_SECRET (now w)) as [[s|obj]|e]; try reflexivity.
    destruct (obj !! "userId") as [userId|]; try reflexivity.
    destruct (castObjectId userId); reflexivity.
  - unfold getUser. destruct ctx as [c|]; [|reflexivity].
    unfold try_catch_eff, bind, lift, throw, ret, findById.
    destruct (read_role (ctx_user c)) as [r|e]; simpl; [|reflexivity].
    destruct (negb (String.eqb r "Admin")); simpl; [reflexivity|].
    destruct (castObjectId (JStr ID)) as [oid|]; simpl; [|reflexivity].
    destruct (lookup_id oid (users w)); reflexivity.
  - unfold getUsers. destruct ctx as [c|]; [|reflexivity].
    unfold try_catch_eff, bind, lift, throw, ret, exec, countDocuments.
    destruct (read_role (ctx_user c)) as [r|e]; simpl; [|reflexivity].
    destruct (negb (String.eqb r "Admin")); simpl; [reflexivity|].
    match goal with |- context [match ?s with Ok _ => _ | Throw _ => _ end] =>
      destruct s end; reflexivity.
  - unfold loginUser, try_catch_eff, bind, findOne_email, throw, ret, lift.
    destruct (List.find _ (users w)) as [u|]; [|eexists; split; [reflexivity|by right]].
    destruct (comparePassword u password) as [[|]|e]; simpl;
      try (eexists; split; [reflexivity|by right]).
    destruct (generateAuthToken M u (now w));
      eexists; (split; [reflexivity|]); [by left|by right].
Qed.

(** ** deleteUser *)

Lemma delete_first_sublist (oid : string) (us : list User) :
  sublist (delete_first oid us) us.
Proof.
  induction us as [|u us IH]; simpl; [constructor|].
  destruct (has_id oid u); [by apply sublist_cons | by apply sublist_skip].
Qed.

Lemma delete_first_NoDup {A} (f : User → A) (oid : string) (us : list User) :
  NoDup (f <$> us) → NoDup (f <$> delete_first oid us).
Proof.
  intros Hnd. apply (sublist_NoDup _ _ Hnd).
  apply fmap_sublist, delete_first_sublist.
Qed.

Lemma lookup_id_delete_first_ne (oid oid' : string) (us : list User) :
  oid' ≠ oid → lookup_id oid' (delete_first oid us) = lookup_id oid' us.
Proof.
  intros Hne. unfold lookup_id.
  induction us as [|u us IH]; simpl; [reflexivity|].
  destruct (has_id oid u) eqn:Hu; simpl.
  - destruct (has_id oid' u) eqn:Hu'; [|reflexivity].
    unfold has_id in *. apply bool_decide_eq_true in Hu, Hu'. congruence.
  - by rewrite IH.
Qed.

Lemma length_delete_first (oid : string) (us : list User) (u : User) :
  lookup_id oid us = Some u → S (length (delete_first oid us)) = length us.
Proof.
  unfold lookup_id. induction us as [|x us IH]; simpl; [discriminate|].
  destruct (has_id oid x); [reflexivity|].
  intros Hfind. simpl. by rewrite IH.
Qed.

Lemma lookup_id_None_not_elem (oid : string) (us : list User) :
  oid ∉ _id <$> us → lookup_id oid us = None.
Proof.
  unfold lookup_id. induction us as [|x us IH]; simpl; [reflexivity|].
  intros Hnotin. apply not_elem_of_cons in Hnotin as [Hx Hrest].
  unfold has_id at 1. rewrite bool_decide_eq_false_2 by congruence. by apply IH.
Qed.

Lemma lookup_id_delete_first_eq (oid : string) (us : list User) :
  unique_ids us → lookup_id oid (delete_first oid us) = None.
Proof.
  unfold unique_ids. induction us as [|x us IH]; simpl; [reflexivity|].
  intros Hnd. apply NoDup_cons in Hnd as [Hx Hnd].
  destruct (has_id oid x) eqn:Hid.
  - unfold has_id in Hid. apply bool_decide_eq_true in Hid. subst oid.
    by apply lookup_id_None_not_elem.
  - unfold lookup_id. simpl. rewrite Hid. by apply IH.
Qed.

(** X4: when an Admin deletes the account stored at an id, [deleteUser]
    returns the status 200 envelope with the deleted account as [user];
    the collection has one account less, every other id still finds the
    account it found before, and, ids being unique, the deleted id finds
    nothing any more. *)
Theorem deleteUser_removes_account `{E : Env} (ID oid : string) (c : Context)
    (admin target : User) (w : World) :
  ctx_user c = Some admin →
  role admin = "Admin" →
  castObjectId (JStr ID) = Some oid →
  lookup_id oid (users w) = Some target →
  ∃ w', deleteUser ID (Some c) w
        = (Ok (mkEnvelope 200 true (Some (Text "User deleted successfully")) None None
                 (Some target) None None None), w')
        ∧ S (length (users w')) = length (users w)
        ∧ (∀ oid', oid' ≠ oid → lookup_id oid' (users w') = lookup_id oid' (users w))
        ∧ (unique_ids (users w) → lookup_id oid (users w') = None)
        ∧ entropy w' = entropy w.
Proof.
  intros Hc Hrole Hcast Hfind.
  unfold deleteUser, try_catch_eff, bind, lift, throw, ret, findByIdAndDelete.
  rewrite Hc. simpl. rewrite Hrole. simpl. rewrite Hcast, Hfind.
  eexists. split; [reflexivity|]. simpl.
  split; [by apply (length_delete_first oid _ target)|].
  split; [intros oid' Hne; by apply lookup_id_delete_first_ne|].
  split; [apply lookup_id_delete_first_eq | reflexivity].
Qed.

Lemma deleteUser_removes_account_witness :
  ∃ w', @deleteUser sampleEnv "b2" (Some aliceContext) sampleWorld
        = (Ok (mkEnvelope 200 true (Some (Text "User deleted successfully")) None None
                 (Some bob) None None None), w')
        ∧ S (length (users w')) = 2%nat
        ∧ lookup_id "a1" (users w') = Some alice
        ∧ lookup_id "b2" (users w') = None.
Proof.
  destruct (@deleteUser_removes_account sampleEnv "b2" "b2" aliceContext alice bob
              sampleWorld)
    as (w' & Hresult & Hlen & Hother & Hgone & _).
  - reflexivity.
  - reflexivity.
  - reflexivity.
  - reflexivity.
  - exists w'. split; [exact Hresult|]. split; [exact Hlen|]. split.
    + rewrite Hother by discriminate. reflexivity.
    + apply Hgone. unfold unique_ids. simpl.
      apply NoDup_cons. split; [|apply NoDup_singleton].
      rewrite list_elem_of_singleton. discriminate.
Defined.

(** ** createUser and loginUser *)

Lemma existsb_has_id_None (oid : string) (us : list User) :
  lookup_id oid us = None → existsb (has_id oid) us = false.
Proof.
  unfold lookup_id. induction us as [|x us IH]; simpl; [reflexivity|].
  destruct (has_id oid x); [discriminate|]. exact IH.
Qed.

Lemma existsb_false_Forall {A} (f : A → bool) (l : list A) :
  (∀ x, x ∈ l → f x = false) → existsb f l = false.
Proof.
  induction l as [|x l IH]; simpl; [reflexivity|].
  intros Hall. rewrite (Hall x) by apply list_elem_of_here.
  apply IH. intros y Hy. apply Hall. by apply list_elem_of_further.
Qed.

Lemma find_snoc_fresh {A} (f : A → bool) (l : list A) (x : A) :
  (∀ y, y ∈ l → f y = false) → f x = true → List.find f (l ++ [x])%list = Some x.
Proof.
  intros Hall Hx. induction l as [|y l IH]; simpl; [by rewrite Hx|].
  rewrite (Hall y) by apply list_elem_of_here.
  apply IH. intros z Hz. apply Hall. by apply list_elem_of_further.
Qed.

(** The save of a new document whose required paths and password are
    set, whose id is not stored and whose email breaks no unique index. *)
Lemma save_new_User `{E : Env} (M : UserModel) (oid p : string) (ui : UserInput)
    (us : list User) (r : Rng) (t : Z) :
  truthy_str (in_username ui) = true →
  truthy_str (in_email ui) = true →
  truthy_str (in_address ui) = true →
  in_password ui = Some p →
  (password_required M = true → p ≠ "") →
  lookup_id oid us = None →
  (email_unique M = true → ∀ x, x ∈ us → email x ≠ in_email ui) →
  save M (new_User oid ui) (mkWorld _ us r t)
  = (Ok (loaded (created_account oid ui r)),
     mkWorld _ (us ++ [created_account oid ui r])%list (bcrypt_genSalt 10 r).2 t).
Proof.
  intros Hname Hmail Haddr Hp Hpw Hfresh Hunique.
  unfold save. simpl.
  assert (Hval : validate M (new_User oid ui) = Ok ()).
  { unfold validate, required_missing. simpl. rewrite Hname, Hmail, Haddr, Hp.
    destruct (password_required M); [|reflexivity].
    by rewrite (truthy_str_Some p (Hpw eq_refl)). }
  rewrite Hval.
  assert (Hins : ∀ pw,
            insertOne M (mkUser oid (in_username ui) (in_email ui) pw (in_address ui) "User") us
            = Ok (us ++ [mkUser oid (in_username ui) (in_email ui) pw (in_address ui) "User"])%list).
  { intros pw. unfold insertOne. simpl.
    rewrite (existsb_has_id_None oid us Hfresh).
    destruct (email_unique M); [|reflexivity]. simpl.
    rewrite existsb_false_Forall; [reflexivity|].
    intros x Hx. apply bool_decide_eq_false. by apply Hunique. }
  unfold preSave. rewrite isModified_password_new_User.
  unfold created_account. simpl.
  destruct (bcrypt_genSalt 10 r) as [salt r'] eqn:Hsalt. rewrite Hp. simpl.
  rewrite Hins. reflexivity.
Qed.

(** The run of an Admin's [createUser] on an input that passes every check. *)
Lemma createUser_appends `{E : Env} (M : UserModel) (ui : UserInput)
    (c : Context) (admin : User) (p : string) (w : World) :
  ctx_user c = Some admin →
  role admin = "Admin" →
  truthy_str (in_username ui) = true →
  truthy_str (in_email ui) = true →
  truthy_str (in_address ui) = true →
  in_password ui = Some p →
  (password_required M = true → p ≠ "") →
  lookup_id (newObjectId (entropy w)).1 (users w) = None →
  (email_unique M = true → ∀ x, x ∈ users w → email x ≠ in_email ui) →
  let oid := (newObjectId (entropy w)).1 in
  let r := (newObjectId (entropy w)).2 in
  createUser M (Some ui) (Some c) w
  = (Ok (mkEnvelope 201 true (Some (Text "User created successfully")) None
           (Some (OneUser admin)) None None None None),
     mkWorld _ (users w ++ [created_account oid ui r])%list
       (bcrypt_genSalt 10 r).2 (now w)).
Proof.
  intros Hc Hrole Hname Hmail Haddr Hp Hpw Hfresh Hunique oid r.
  unfold createUser, try_catch_eff, bind, lift, throw, ret.
  rewrite Hc. simpl. rewrite Hrole. simpl.
  subst oid r. destruct (newObjectId (entropy w)) as [oid r]. simpl in *.
  rewrite (save_new_User M oid p ui (users w) r (now w)) by assumption.
  reflexivity.
Qed.

(** X5: an Admin's [createUser] with username, email and address set, a
    password given (non-empty where the model requires it), an ObjectId
    that is not stored and, where the index is unique, an email that no
    account has, returns the status 201 envelope and appends one account:
    the id drawn, the username, email and address of the input, the role
    "User" whatever the caller, and as password the bcrypt hash of the
    input password under the salt drawn by the pre-save hook; the
    accounts already stored are untouched. *)
Theorem createUser_stores_account `{E : Env} (M : UserModel) (ui : UserInput)
    (c : Context) (admin : User) (p : string) (w : World) :
  ctx_user c = Some admin →
  role admin = "Admin" →
  truthy_str (in_username ui) = true →
  truthy_str (in_email ui) = true →
  truthy_str (in_address ui) = true →
  in_password ui = Some p →
  (password_required M = true → p ≠ "") →
  lookup_id (newObjectId (entropy w)).1 (users w) = None →
  (email_unique M = true → ∀ x, x ∈ users w → email x ≠ in_email ui) →
  let oid := (newObjectId (entropy w)).1 in
  let r := (newObjectId (entropy w)).2 in
  createUser M (Some ui) (Some c) w
  = (Ok (mkEnvelope 201 true (Some (Text "User created successfully")) None
           (Some (OneUser admin)) None None None None),
     mkWorld _
       (users w ++ [mkUser oid (in_username ui) (in_email ui)
                      (Some (bcrypt_hash p (bcrypt_genSalt 10 r).1))
                      (in_address ui) "User"])%list
       (bcrypt_genSalt 10 r).2 (now w)).
Proof.
  intros Hc Hrole Hname Hmail Haddr Hp Hpw Hfresh Hunique oid r.
  rewrite (createUser_appends M ui c admin p w) by assumption.
  unfold created_account. rewrite Hp. reflexivity.
Qed.

Lemma createUser_stores_account_witness :
  @createUser sampleEnv userSchema (Some carol_input) (Some aliceContext) sampleWorld
  = (Ok (mkEnvelope 201 true (Some (Text "User created successfully")) None
           (Some (OneUser alice)) None None None None),
     @mkWorld sampleEnv
       [alice; bob;
        mkUser "idC" (Some "carol") (Some "carol@example.org") (Some "Dpw-carol")
          (Some "3 High St") "User"]
       69%nat 1000).
Proof.
  apply (@createUser_stores_account sampleEnv userSchema carol_input aliceContext alice
           "pw-carol" sampleWorld).
  - reflexivity.
  - reflexivity.
  - reflexivity.
  - reflexivity.
  - reflexivity.
  - reflexivity.
  - discriminate.
  - reflexivity.
  - intros _ x Hx. apply list_elem_of_In in Hx. simpl in Hx.
    destruct Hx as [<-|[<-|[]]]; discriminate.
Defined.

(** X6: create, then log in.  After such a [createUser] whose input has
    the password [p] and an email [e] that no stored account has,
    [loginUser(e, p)] finds the new account, bcrypt accepts [p] against
    the stored hash, and the envelope has status 200 with that account as
    [user] and the token signed for it. *)
Theorem created_account_can_login `{E : Env} `{!BcryptLaws E} (M : UserModel)
    (ui : UserInput) (c : Context) (admin : User) (e p tok : string) (w : World) :
  ctx_user c = Some admin →
  role admin = "Admin" →
  truthy_str (in_username ui) = true →
  truthy_str (in_address ui) = true →
  in_email ui = Some e →
  e ≠ "" →
  in_password ui = Some p →
  p ≠ "" →
  lookup_id (newObjectId (entropy w)).1 (users w) = None →
  (∀ x, x ∈ users w → email x ≠ Some e) →
  let created := created_account (newObjectId (entropy w)).1 ui
                   (newObjectId (entropy w)).2 in
  generateAuthToken M created (now w) = Ok tok →
  let w' := (createUser M (Some ui) (Some c) w).2 in
  loginUser M e p w'
  = (Ok (mkEnvelope 200 true (Some (Text "Login successfully")) None None
           (Some created) (Some tok) (Some created) None), w').
Proof.
  intros Hc Hrole Hname Haddr Hmail He Hpw Hp Hfresh Hunique created Htok w'.
  subst w'.
  rewrite (createUser_appends M ui c admin p w Hc Hrole Hname); try assumption.
  - simpl. unfold loginUser, try_catch_eff, bind, findOne_email, throw, ret, lift.
    simpl users. fold created.
    rewrite (find_snoc_fresh _ (users w) created).
    + unfold comparePassword. subst created. unfold created_account at 1.
      simpl. rewrite Hpw. rewrite compare_hash. simpl.
      fold (created_account (newObjectId (entropy w)).1 ui (newObjectId (entropy w)).2).
      simpl now. rewrite Htok. reflexivity.
    + intros y Hy. apply bool_decide_eq_false. by apply Hunique.
    + apply bool_decide_eq_true. subst created. simpl. exact Hmail.
  - rewrite Hmail. by apply truthy_str_Some.
  - intros _. exact Hp.
  - intros _ x Hx. rewrite Hmail. by apply Hunique.
Qed.

Lemma created_account_can_login_witness :
  let carol := mkUser "idC" (Some "carol") (Some "carol@example.org")
                 (Some "Dpw-carol") (Some "3 High St") "User" in
  let w' := (@createUser sampleEnv userSchema (Some carol_input) (Some aliceContext)
               sampleWorld).2 in
  @loginUser sampleEnv userSchema "carol@example.org" "pw-carol" w'
  = (Ok (mkEnvelope 200 true (Some (Text "Login successfully")) None None
           (Some carol) (Some "k.idC") (Some carol) None), w').
Proof.
  apply (@created_account_can_login sampleEnv sample_bcrypt_laws userSchema carol_input
           aliceContext alice "carol@example.org" "pw-carol" "k.idC" sampleWorld).
  - reflexivity.
  - reflexivity.
  - reflexivity.
  - reflexivity.
  - reflexivity.
  - discriminate.
  - reflexivity.
  - discriminate.
  - reflexivity.
  - intros x Hx. apply list_elem_of_In in Hx. simpl in Hx.
    destruct Hx as [<-|[<-|[]]]; discriminate.
  - vm_compute. reflexivity.
Defined.

(** X7: [loginUser] hands out a token only for a password that bcrypt
    accepts: whenever its envelope carries a token, the first stored
    account with the given email has a password hash that
    [bcrypt.compare] accepts for the given password, the token is the one
    [generateAuthToken] signs for that account, and the envelope has
    status 200 with that account as [user]. *)
Theorem login_token_needs_valid_password `{E : Env} (M : UserModel)
    (email0 password0 tok : string) (w w' : World) (env : Envelope) :
  loginUser M email0 password0 w = (Ok env, w') →
  token env = Some tok →
  ∃ u h,
    List.find (λ x, bool_decide (email x = Some email0)) (users w) = Some u
    ∧ password u = Some h
    ∧ bcrypt_compare password0 h = true
    ∧ generateAuthToken M u (now w) = Ok tok
    ∧ status env = 200
    ∧ user env = Some u.
Proof.
  unfold loginUser, try_catch_eff, bind, findOne_email, throw, ret, lift.
  destruct (List.find _ (users w)) as [u|] eqn:Hfind; simpl.
  - unfold comparePassword. destruct (password u) as [h|] eqn:Hh; simpl.
    + destruct (bcrypt_compare password0 h) eqn:Hcmp; simpl.
      * destruct (generateAuthToken M u (now w)) as [t|e] eqn:Htok.
        -- intros [= <- _] [= <-]. exists u, h. by repeat split.
        -- intros [= <- _]. discriminate.
      * intros [= <- _]. discriminate.
    + intros [= <- _]. discriminate.
  - intros [= <- _]. discriminate.
Qed.

Lemma login_token_needs_valid_password_witness :
  ∃ u h,
    List.find (λ x, bool_decide (email x = Some "bob@example.org")) [alice; bob] = Some u
    ∧ password u = Some h
    ∧ @bcrypt_compare sampleEnv "pw-bob" h = true
    ∧ @generateAuthToken sampleEnv userSchema u 1000 = Ok "k.b2"
    ∧ 200 = 200
    ∧ Some bob = Some u.
Proof.
  apply (@login_token_needs_valid_password sampleEnv userSchema "bob@example.org"
           "pw-bob" "k.b2" sampleWorld sampleWorld
           (mkEnvelope 200 true (Some (Text "Login successfully")) None None
              (Some bob) (Some "k.b2") (Some bob) None)).
  - vm_compute. reflexivity.
  - reflexivity.
Defined.

(** X8: the ways [loginUser] fails.  No account with the email: status
    500 with the message "User not found".  A stored hash that bcrypt
    does not accept for the password: status 500 with "Invalid password".
    An account stored without a password, which the schema of the
    TypeScript model allows: bcrypt throws and the envelope has status 500
    with its message, whatever the password.  The world is as it was and
    no token is in the envelope. *)
Theorem loginUser_failures `{E : Env} (M : UserModel) (email0 password0 : string)
    (w : World) :
  let found := List.find (λ x, bool_decide (email x = Some email0)) (users w) in
  (found = None →
   loginUser M email0 password0 w = (Ok (failure_500 (Error "User not found")), w))
  ∧ (∀ u h, found = Some u → password u = Some h →
            bcrypt_compare password0 h = false →
            loginUser M email0 password0 w
            = (Ok (failure_500 (Error "Invalid password")), w))
  ∧ (∀ u, found = Some u → password u = None →
          loginUser M email0 password0 w = (Ok (failure_500 BcryptError), w)).
Proof.
  unfold loginUser, try_catch_eff, bind, findOne_email, throw, ret, lift, comparePassword.
  simpl. repeat split.
  - intros ->. reflexivity.
  - intros u h -> Hh Hcmp. simpl. rewrite Hh. simpl. rewrite Hcmp. reflexivity.
  - intros u -> Hh. simpl. rewrite Hh. reflexivity.
Qed.

Lemma loginUser_failures_witness :
  @loginUser sampleEnv userSchema "nobody@example.org" "pw" sampleWorld
    = (Ok (failure_500 (Error "User not found")), sampleWorld)
  ∧ @loginUser sampleEnv userSchema "bob@example.org" "guess" sampleWorld
    = (Ok (failure_500 (Error "Invalid password")), sampleWorld)
  ∧ @loginUser sampleEnv userSchema "ann@example.org" "pw"
      (@mkWorld sampleEnv (sample_users ["ann"]) 0%nat 0)
    = (Ok (failure_500 BcryptError), @mkWorld sampleEnv (sample_users ["ann"]) 0%nat 0).
Proof.
  split; [|split].
  - apply (proj1 (@loginUser_failures sampleEnv userSchema "nobody@example.org" "pw"
                    sampleWorld)).
    reflexivity.
  - apply (proj1 (proj2 (@loginUser_failures sampleEnv userSchema "bob@example.org"
                           "guess" sampleWorld)) bob "Bpw-bob"); reflexivity.
  - apply (proj2 (proj2 (@loginUser_failures sampleEnv userSchema "ann@example.org" "pw"
                           (@mkWorld sampleEnv (sample_users ["ann"]) 0%nat 0)))
             (mkUser "id-ann" (Some "ann") (Some "ann@example.org") None
                (Some "1 Main St") "User")); reflexivity.
Defined.

(** ** From a login to the next request *)

Lemma set_opt_lookup_ne (k k' : string) (v : option string) (m : gmap string JVal) :
  k ≠ k' → set_opt k v m !! k' = m !! k'.
Proof. intros Hne. destruct v; simpl; [by rewrite lookup_insert_ne|reflexivity]. Qed.

(** The payload that is signed names the account by its [_id]. *)
Lemma token_payload_userId (M : UserModel) (this : User) :
  token_payload M this !! "userId" = Some (JStr (_id this)).
Proof.
  unfold token_payload.
  destruct (token_has_role M); [rewrite lookup_insert_ne by discriminate|];
    rewrite !set_opt_lookup_ne by discriminate; apply lookup_singleton_eq.
Qed.

Lemma prefix_app (a b c : string) :
  String.prefix (String.append a b) (String.append a c) = String.prefix b c.
Proof.
  induction a as [|x a IH]; simpl; [reflexivity|].
  destruct (Ascii.ascii_dec x x); [exact IH|congruence].
Qed.

Lemma substring_0_all (s : string) (m : nat) :
  (String.length s ≤ m)%nat → String.substring 0 m s = s.
Proof.
  revert m. induction s as [|x s IH]; intros [|m] Hlen; simpl in *;
    try reflexivity; try lia.
  rewrite IH; [reflexivity|lia].
Qed.

Lemma substring_after (a b : string) (m : nat) :
  String.substring (S (String.length a)) m (String.append a (String "." b))
  = String.substring 0 m b.
Proof. induction a as [|x a IH]; simpl; [reflexivity|exact IH]. Qed.

Lemma length_app_ge (a b : string) :
  (String.length b ≤ String.length (String.append a b))%nat.
Proof.
  induction a as [|x a IH]; [apply Nat.le_refl|].
  change (String.length (String.append (String x a) b))
    with (S (String.length (String.append a b))).
  by apply Nat.le_le_succ_r.
Qed.

Lemma sample_jwt_laws : JwtLaws sampleEnv.
Proof.
  split. intros payload secret expiresIn t t' tok Hsign _.
  simpl in *. unfold sample_sign in Hsign. unfold sample_verify.
  destruct (payload !! "userId") as [[|uid| |]|] eqn:Hid; try discriminate.
  injection Hsign as <-.
  change (String.append "." uid) with (String "." uid).
  replace (String.append secret ".") with (String.append secret (String "." ""))
    by reflexivity.
  rewrite prefix_app. simpl.
  replace (String.prefix "" uid) with true by (by destruct uid).
  rewrite substring_after, substring_0_all.
  - eexists. split; [reflexivity|]. apply lookup_singleton_eq.
  - transitivity (String.length (String "." uid)); [simpl; lia|].
    apply length_app_ge.
Qed.

(** X9: a token that [generateAuthToken] signed for an account, presented
    before it expires as the second word of the authorization header,
    makes the context function return that token with the account now
    stored under the id of the account it was signed for ([null] when
    none is); the role the gate will read is the stored one, not the one
    in the token.  An id that does not cast to an ObjectId is rejected as
    an invalid token. *)
Theorem issued_token_authenticates `{E : Env} `{!JwtLaws E} (M : UserModel)
    (issuer : User) (secret tok header : string) (t : Z) (req : Request) (w : World) :
  JWT_SECRET = Some secret →
  generateAuthToken M issuer t = Ok tok →
  t ≤ now w < t + 3600 →
  authorization req = Some header →
  split " "%char header !! 1%nat = Some tok →
  tok ≠ "" →
  context req w
  = match castObjectId (JStr (_id issuer)) with
    | Some oid => (Ok (Some (mkContext tok (lookup_id oid (users w)))), w)
    | None => (Throw invalid_token, w)
    end.
Proof.
  intros Hsecret Hsign Htime Hauth Htok Hne.
  rewrite (context_with_token req header tok w Hauth Htok Hne).
  unfold generateAuthToken in Hsign. rewrite Hsecret in *.
  destruct (verify_sign_userId _ _ _ _ (now w) _ Hsign Htime) as (obj & -> & Hid).
  rewrite Hid, token_payload_userId. reflexivity.
Qed.

Lemma issued_token_authenticates_witness :
  @context sampleEnv (mkRequest (Some "Bearer k.b2")) sampleWorld
  = (Ok (Some (mkContext "k.b2" (Some bob))), sampleWorld).
Proof.
  apply (@issued_token_authenticates sampleEnv sample_jwt_laws userSchema bob "k" "k.b2"
           "Bearer k.b2" 0 (mkRequest (Some "Bearer k.b2")) sampleWorld).
  - reflexivity.
  - vm_compute. reflexivity.
  - split; vm_compute; [discriminate|reflexivity].
  - reflexivity.
  - reflexivity.
  - discriminate.
Defined.

(** ** updateUser, when it succeeds and when the email is taken *)

Lemma existsb_has_id_Some (oid : string) (us : list User) (u : User) :
  lookup_id oid us = Some u → existsb (has_id oid) us = true.
Proof.
  unfold lookup_id. induction us as [|x us IH]; simpl; [discriminate|].
  destruct (has_id oid x); [reflexivity|]. exact IH.
Qed.

Lemma lookup_id_replace_first_eq (u u' : User) (us : list User) :
  lookup_id (_id u') us = Some u → lookup_id (_id u') (replace_first u' us) = Some u'.
Proof.
  unfold lookup_id. induction us as [|x us IH]; simpl; [discriminate|].
  destruct (has_id (_id u') x) eqn:Hx; simpl.
  - intros _. unfold has_id. by rewrite bool_decide_eq_true_2.
  - rewrite Hx. exact IH.
Qed.

Lemma lookup_id_replace_first_ne (oid' : string) (u' : User) (us : list User) :
  oid' ≠ _id u' → lookup_id oid' (replace_first u' us) = lookup_id oid' us.
Proof.
  intros Hne. unfold lookup_id. induction us as [|x us IH]; simpl; [reflexivity|].
  destruct (has_id (_id u') x) eqn:Hx; simpl.
  - unfold has_id in *. apply bool_decide_eq_true in Hx.
    rewrite !bool_decide_eq_false_2 by congruence. reflexivity.
  - by rewrite IH.
Qed.

Lemma length_replace_first (u' : User) (us : list User) :
  length (replace_first u' us) = length us.
Proof.
  induction us as [|x us IH]; simpl; [reflexivity|].
  destruct (has_id (_id u') x); simpl; [reflexivity|by rewrite IH].
Qed.

Lemma validate_updated_document (M : UserModel) (target : User) (ui : UpdateUserInput) :
  truthy_str (up_username ui) = true →
  truthy_str (up_email ui) = true →
  truthy_str (up_address ui) = true →
  (password_required M = true → truthy_str (password target) = true) →
  validate M (updated_document target ui) = Ok ().
Proof.
  intros Hname Hmail Haddr Hpw.
  unfold validate, required_missing. rewrite updated_document_fields. simpl.
  rewrite Hname, Hmail, Haddr.
  destruct (password_required M); [|reflexivity]. by rewrite Hpw.
Qed.

Lemma updated_document_email_modified (target : User) (ui : UpdateUserInput) :
  email target ≠ up_email ui →
  isModified "email" (updated_document target ui) = true.
Proof.
  intros Hne.
  unfold updated_document, isModified, assign_address, assign_email,
    assign_username, mark, loaded. simpl.
  rewrite (bool_decide_eq_false_2 (email target = up_email ui)) by exact Hne.
  destruct (bool_decide (address target = up_address ui));
    destruct (bool_decide (username target = up_username ui));
    vm_compute; reflexivity.
Qed.

(** X10: an Admin's [updateUser] on a stored account, with the three
    fields set and, where the index is unique, an email that no other
    account has, returns the status 200 envelope with the updated account:
    the target with the username, email and address of the input and its
    own id, password and role.  Afterwards its id finds that account,
    every other id finds what it found before, and the collection has the
    same size; no entropy is drawn. *)
Theorem updateUser_stores_fields `{E : Env} (M : UserModel) (ID oid : string)
    (ui : UpdateUserInput) (c : Context) (admin target : User) (w : World) :
  ctx_user c = Some admin →
  role admin = "Admin" →
  castObjectId (JStr ID) = Some oid →
  lookup_id oid (users w) = Some target →
  truthy_str (up_username ui) = true →
  truthy_str (up_email ui) = true →
  truthy_str (up_address ui) = true →
  (password_required M = true → truthy_str (password target) = true) →
  (email_unique M = true → ∀ x, x ∈ users w → _id x ≠ oid → email x ≠ up_email ui) →
  ∃ w', updateUser M ID (Some ui) (Some c) w
        = (Ok (mkEnvelope 200 true (Some (Text "User updated successfully")) None None
                 (Some (updated_account target ui)) None None None), w')
        ∧ lookup_id oid (users w') = Some (updated_account target ui)
        ∧ (∀ oid', oid' ≠ oid → lookup_id oid' (users w') = lookup_id oid' (users w))
        ∧ length (users w') = length (users w)
        ∧ entropy w' = entropy w.
Proof.
  intros Hc Hrole Hcast Hfind Hname Hmail Haddr Hpw Hunique.
  pose proof (lookup_id_has_id oid (users w) target Hfind) as Hid.
  unfold updateUser, try_catch_eff, bind, lift, throw, ret, findById.
  rewrite Hc. simpl. rewrite Hrole. simpl. rewrite Hcast, Hfind.
  fold (updated_document target ui). unfold save.
  rewrite (validate_updated_document M target ui Hname Hmail Haddr Hpw).
  rewrite preSave_unmodified by apply updated_document_password_unmodified.
  rewrite updated_document_isNew.
  assert (Hupd : updateOne M (updated_document target ui) (users w)
                 = Ok (replace_first (updated_account target ui) (users w))).
  { unfold updateOne. rewrite updated_document_fields.
    fold (updated_account target ui).
    change (_id (updated_account target ui)) with (_id target). rewrite Hid.
    rewrite (existsb_has_id_Some oid (users w) target Hfind). simpl.
    destruct (email_unique M) eqn:HM; [|reflexivity]. simpl.
    rewrite (existsb_false_Forall _ (users w)); [by rewrite andb_false_r|].
    intros x Hx. unfold has_id.
    destruct (decide (_id x = oid)) as [Heq|Hne].
    - by rewrite bool_decide_eq_true_2.
    - rewrite (bool_decide_eq_false_2 (_id x = oid)) by exact Hne. simpl.
      apply bool_decide_eq_false. by apply Hunique. }
  rewrite Hupd. eexists. split; [reflexivity|]. simpl.
  assert (Hid' : _id (updated_account target ui) = oid) by exact Hid.
  split; [|split; [|split]].
  - rewrite <- Hid' at 1. apply (lookup_id_replace_first_eq target).
    by rewrite Hid'.
  - intros oid' Hne. apply lookup_id_replace_first_ne. by rewrite Hid'.
  - apply length_replace_first.
  - reflexivity.
Qed.

Lemma updateUser_stores_fields_witness :
  let input := mkUpdateUserInput (Some "robert") (Some "bob@new.example")
                 (Some "9 New St") in
  let robert := mkUser "b2" (Some "robert") (Some "bob@new.example") (Some "Bpw-bob")
                  (Some "9 New St") "User" in
  ∃ w', @updateUser sampleEnv userSchema "b2" (Some input) (Some aliceContext) sampleWorld
        = (Ok (mkEnvelope 200 true (Some (Text "User updated successfully")) None None
                 (Some robert) None None None), w')
        ∧ lookup_id "b2" (users w') = Some robert
        ∧ lookup_id "a1" (users w') = Some alice.
Proof.
  destruct (@updateUser_stores_fields sampleEnv userSchema "b2" "b2"
              (mkUpdateUserInput (Some "robert") (Some "bob@new.example")
                 (Some "9 New St"))
              aliceContext alice bob sampleWorld)
    as (w' & Hresult & Hsame & Hother & _).
  - reflexivity.
  - reflexivity.
  - reflexivity.
  - reflexivity.
  - reflexivity.
  - reflexivity.
  - reflexivity.
  - discriminate.
  - intros _ x Hx Hid. apply list_elem_of_In in Hx. simpl in Hx.
    destruct Hx as [<-|[<-|[]]]; [discriminate|by destruct Hid].
  - exists w'. split; [exact Hresult|]. split; [exact Hsame|].
    rewrite Hother by discriminate. reflexivity.
Defined.

(** X11: with the unique email index of the TypeScript model, an Admin's
    [updateUser] that changes the email of the target to the email of a
    different stored account fails on the write: the envelope has status
    500 with the message of the driver's error 11000 (not the 400 that
    [createUser] gives for the same error), and the world is as it was. *)
Theorem updateUser_email_taken `{E : Env} (ID oid : string) (ui : UpdateUserInput)
    (c : Context) (admin target other : User) (w : World) :
  ctx_user c = Some admin →
  role admin = "Admin" →
  castObjectId (JStr ID) = Some oid →
  lookup_id oid (users w) = Some target →
  truthy_str (up_username ui) = true →
  truthy_str (up_email ui) = true →
  truthy_str (up_address ui) = true →
  other ∈ users w →
  _id other ≠ oid →
  email other = up_email ui →
  email target ≠ up_email ui →
  updateUser userSchema ID (Some ui) (Some c) w
  = (Ok (mkEnvelope 500 false (Some (LibraryText (MongoServerError 11000)))
           None None None None None None), w).
Proof.
  intros Hc Hrole Hcast Hfind Hname Hmail Haddr Hin Hother Hsame Hchanged.
  pose proof (lookup_id_has_id oid (users w) target Hfind) as Hid.
  unfold updateUser, try_catch_eff, bind, lift, throw, ret, findById.
  rewrite Hc. simpl. rewrite Hrole. simpl. rewrite Hcast, Hfind.
  fold (updated_document target ui). unfold save.
  rewrite (validate_updated_document userSchema target ui Hname Hmail Haddr)
    by discriminate.
  rewrite preSave_unmodified by apply updated_document_password_unmodified.
  rewrite updated_document_isNew.
  assert (Hupd : updateOne userSchema (updated_document target ui) (users w)
                 = Throw (MongoServerError 11000)).
  { unfold updateOne. rewrite updated_document_fields.
    fold (updated_account target ui).
    change (_id (updated_account target ui)) with (_id target). rewrite Hid.
    rewrite (existsb_has_id_Some oid (users w) target Hfind). simpl.
    rewrite (updated_document_email_modified target ui Hchanged). simpl.
    rewrite (existsb_elem_of _ other); [reflexivity|exact Hin|].
    unfold has_id. rewrite (bool_decide_eq_false_2 (_id other = oid)) by exact Hother.
    simpl. by apply bool_decide_eq_true. }
  rewrite Hupd. rewrite World_eta. reflexivity.
Qed.

Lemma updateUser_email_taken_witness :
  @updateUser sampleEnv userSchema "b2"
    (Some (mkUpdateUserInput (Some "bob") (Some "alice@example.org") (Some "2 Side St")))
    (Some aliceContext) sampleWorld
  = (Ok (mkEnvelope 500 false (Some (LibraryText (MongoServerError 11000)))
           None None None None None None), sampleWorld).
Proof.
  apply (@updateUser_email_taken sampleEnv "b2" "b2"
           (mkUpdateUserInput (Some "bob") (Some "alice@example.org") (Some "2 Side St"))
           aliceContext alice bob alice sampleWorld).
  - reflexivity.
  - reflexivity.
  - reflexivity.
  - reflexivity.
  - reflexivity.
  - reflexivity.
  - reflexivity.
  - apply list_elem_of_here.
  - discriminate.
  - reflexivity.
  - discriminate.
Defined.

(** ** getUsers without a limit *)



(** ** Unique ids and unique emails *)

Lemma context_world `{E : Env} (req : Request) (w : World) : (context req w).2 = w.
Proof.
  unfold context. destruct (authorization req) as [header|]; [|reflexivity].
  destruct (split " "%char header !! 1%nat) as [tok|] eqn:Htok; [|reflexivity].
  destruct (truthy_str (Some tok)); [|reflexivity].
  unfold try_catch_eff, bind, throw, ret, findById.
  destruct (jwt_verify tok JWT_SECRET (now w)) as [[s|obj]|e]; try reflexivity.
  destruct (obj !! "userId") as [userId|]; try reflexivity.
  destruct (castObjectId userId); reflexivity.
Qed.

Lemma getUser_world `{E : Env} (ID : string) (ctx : option Context) (w : World) :
  (getUser ID ctx w).2 = w.
Proof.
  unfold getUser. destruct ctx as [c|]; [|reflexivity].
  unfold try_catch_eff, bind, lift, throw, ret, findById.
  destruct (read_role (ctx_user c)) as [r|e]; simpl; [|reflexivity].
  destruct (negb (String.eqb r "Admin")); simpl; [reflexivity|].
  destruct (castObjectId (JStr ID)) as [oid|]; simpl; [|reflexivity].
  destruct (lookup_id oid (users w)); reflexivity.
Qed.

Lemma getUsers_world `{E : Env} (pagination : option PaginationInput)
    (sort : option SortInput) (ctx : option Context) (w : World) :
  (getUsers pagination sort ctx w).2 = w.
Proof.
  unfold getUsers. destruct ctx as [c|]; [|reflexivity].
  unfold try_catch_eff, bind, lift, throw, ret, exec, countDocuments.
  destruct (read_role (ctx_user c)) as [r|e]; simpl; [|reflexivity].
  destruct (negb (String.eqb r "Admin")); simpl; [reflexivity|].
  match goal with |- context [match ?s with Ok _ => _ | Throw _ => _ end] =>
    destruct s end; reflexivity.
Qed.

Lemma loginUser_world `{E : Env} (M : UserModel) (email0 password0 : string) (w : World) :
  (loginUser M email0 password0 w).2 = w.
Proof.
  unfold loginUser, try_catch_eff, bind, findOne_email, throw, ret, lift.
  destruct (List.find _ (users w)) as [u|]; [|reflexivity].
  destruct (comparePassword u password0) as [[|]|e]; simpl; try reflexivity.
  destruct (generateAuthToken M u (now w)); reflexivity.
Qed.

Lemma existsb_false_elem {A} (f : A → bool) (l : list A) (x : A) :
  existsb f l = false → x ∈ l → f x = false.
Proof.
  intros Hex Hin. destruct (f x) eqn:Hfx; [|reflexivity].
  rewrite (existsb_elem_of f x l Hin Hfx) in Hex. discriminate.
Qed.

Lemma lookup_id_Some_elem (oid : string) (us : list User) (u : User) :
  lookup_id oid us = Some u → u ∈ us.
Proof.
  unfold lookup_id. intros Hfind. apply find_some in Hfind as [Hin _].
  by apply list_elem_of_In.
Qed.

(** The write of a new document keeps ids unique and, under the unique
    index, emails unique. *)
Lemma insertOne_unique (M : UserModel) (u : User) (us us' : list User) :
  insertOne M u us = Ok us' →
  (unique_ids us → unique_ids us')
  ∧ (email_unique M = true → unique_emails us → unique_emails us').
Proof.
  unfold insertOne, unique_ids, unique_emails.
  destruct (existsb (has_id (_id u)) us) eqn:Hid; [discriminate|].
  destruct (email_unique M && _) eqn:Hmail; [discriminate|].
  intros [= <-]. rewrite !fmap_app. simpl. split.
  - intros Hnd. apply NoDup_app. split; [exact Hnd|]. split; [|apply NoDup_singleton].
    intros i Hi ->%list_elem_of_singleton.
    apply list_elem_of_fmap in Hi as (x & Hx & Hin).
    pose proof (existsb_false_elem _ _ x Hid Hin) as Hfalse.
    unfold has_id in Hfalse. apply bool_decide_eq_false in Hfalse. congruence.
  - intros HM Hnd. rewrite HM in Hmail. simpl in Hmail.
    apply NoDup_app. split; [exact Hnd|]. split; [|apply NoDup_singleton].
    intros i Hi ->%list_elem_of_singleton.
    apply list_elem_of_fmap in Hi as (x & Hx & Hin).
    pose proof (existsb_false_elem _ _ x Hmail Hin) as Hfalse.
    apply bool_decide_eq_false in Hfalse. congruence.
Qed.

Lemma fmap_id_replace_first (u' : User) (us : list User) :
  _id <$> replace_first u' us = _id <$> us.
Proof.
  induction us as [|x us IH]; [reflexivity|]. simpl replace_first.
  destruct (has_id (_id u') x) eqn:Hx; rewrite !fmap_cons.
  - unfold has_id in Hx. apply bool_decide_eq_true in Hx. by rewrite Hx.
  - by rewrite IH.
Qed.

Lemma fmap_replace_first_same {A} (f : User → A) (u' target : User) (us : list User) :
  lookup_id (_id u') us = Some target →
  f u' = f target →
  f <$> replace_first u' us = f <$> us.
Proof.
  unfold lookup_id. intros Hfind Hf.
  induction us as [|x us IH]; [reflexivity|].
  simpl replace_first. simpl in Hfind.
  destruct (has_id (_id u') x); rewrite !fmap_cons.
  - injection Hfind as ->. by rewrite Hf.
  - by rewrite IH.
Qed.

Lemma elem_of_replace_first (u' y : User) (us : list User) :
  y ∈ replace_first u' us → y = u' ∨ y ∈ us.
Proof.
  induction us as [|x us IH]; simpl; [by right|].
  destruct (has_id (_id u') x).
  - intros [->|Hy]%elem_of_cons; [by left|]. right. by apply list_elem_of_further.
  - intros [->|Hy]%elem_of_cons; [right; apply list_elem_of_here|].
    destruct (IH Hy) as [->|Hin]; [by left|]. right. by apply list_elem_of_further.
Qed.

Lemma replace_first_unique_emails (u' : User) (us : list User) :
  unique_ids us →
  unique_emails us →
  (∀ x, x ∈ us → _id x ≠ _id u' → email x ≠ email u') →
  unique_emails (replace_first u' us).
Proof.
  unfold unique_ids, unique_emails.
  induction us as [|x us IH]; simpl; [intros; constructor|].
  intros [Hx Hids]%NoDup_cons [Hxm Hmails]%NoDup_cons Hcheck.
  destruct (has_id (_id u') x) eqn:Hid; simpl.
  - unfold has_id in Hid. apply bool_decide_eq_true in Hid.
    apply NoDup_cons. split; [|exact Hmails].
    intros (y & Hy & Hin)%list_elem_of_fmap.
    apply (Hcheck y); [by apply list_elem_of_further| |congruence].
    intros Heq. apply Hx. apply list_elem_of_fmap. exists y. split; [congruence|exact Hin].
  - unfold has_id in Hid. apply bool_decide_eq_false in Hid.
    apply NoDup_cons. split.
    + intros (y & Hy & Hin)%list_elem_of_fmap.
      apply elem_of_replace_first in Hin as [->|Hin].
      * apply (Hcheck x); [apply list_elem_of_here|exact Hid|exact Hy].
      * apply Hxm. apply list_elem_of_fmap. by exists y.
    + apply IH; [exact Hids|exact Hmails|].
      intros y Hy. apply Hcheck. by apply list_elem_of_further.
Qed.

(** The write of a loaded document whose email is marked modified exactly
    when it differs from the stored one. *)
Lemma updateOne_unique (M : UserModel) (d : Document) (target : User)
    (us us' : list User) :
  lookup_id (_id (fields d)) us = Some target →
  (isModified "email" d = false → email (fields d) = email target) →
  updateOne M d us = Ok us' →
  (unique_ids us → unique_ids us')
  ∧ (email_unique M = true → unique_ids us → unique_emails us → unique_emails us').
Proof.
  intros Hfind Hmark. unfold updateOne.
  destruct (negb (existsb _ us)); [discriminate|].
  destruct (email_unique M && isModified "email" d && _) eqn:Hcheck; [discriminate|].
  intros [= <-]. split.
  - unfold unique_ids. by rewrite fmap_id_replace_first.
  - intros HM Hids Hmails. rewrite HM in Hcheck. simpl in Hcheck.
    destruct (isModified "email" d) eqn:Hmod; simpl in Hcheck.
    + apply replace_first_unique_emails; [exact Hids|exact Hmails|].
      intros x Hx Hne.
      pose proof (existsb_false_elem _ _ x Hcheck Hx) as Hfalse.
      unfold has_id in Hfalse.
      rewrite (bool_decide_eq_false_2 (_id x = _id (fields d))) in Hfalse by exact Hne.
      simpl in Hfalse. by apply bool_decide_eq_false in Hfalse.
    + unfold unique_emails.
      by rewrite (fmap_replace_first_same email _ target us Hfind (Hmark eq_refl)).
Qed.

Lemma preSave_shape `{E : Env} (d d' : Document) (r r' : Rng) :
  preSave d r = (Ok d', r') →
  isNew d' = isNew d
  ∧ modifiedPaths d' = modifiedPaths d
  ∧ _id (fields d') = _id (fields d)
  ∧ email (fields d') = email (fields d).
Proof.
  unfold preSave. destruct (negb (isModified "password" d)).
  - intros [= <- _]. by repeat split.
  - destruct (bcrypt_genSalt 10 r) as [salt r''].
    destruct (password (fields d)); [|discriminate].
    intros [= <- _]. by repeat split.
Qed.

(** [save] keeps ids unique and, under the unique index, emails unique,
    for a new document and for a loaded one that is stored and whose
    email is marked modified when it differs from the stored one. *)
Lemma save_unique `{E : Env} (M : UserModel) (d : Document) (w : World) :
  (isNew d = false →
   ∃ target, lookup_id (_id (fields d)) (users w) = Some target
             ∧ (isModified "email" d = false → email (fields d) = email target)) →
  (unique_ids (users w) → unique_ids (users (save M d w).2))
  ∧ (email_unique M = true → unique_ids (users w) → unique_emails (users w) →
     unique_emails (users (save M d w).2)).
Proof.
  intros Hloaded. unfold save.
  destruct (validate M d); [|by split].
  destruct (preSave d (entropy w)) as [[d'|e] r] eqn:Hpre; [|by split].
  apply preSave_shape in Hpre as (Hnew & Hpaths & Hid & Hmail).
  destruct (isNew d') eqn:Hd'.
  - destruct (insertOne M (fields d') (users w)) as [us|e] eqn:Hins; [|by split].
    simpl. destruct (insertOne_unique M _ _ _ Hins) as [Hids Hmails].
    split; [exact Hids|]. intros HM _. by apply Hmails.
  - destruct (updateOne M d' (users w)) as [us|e] eqn:Hupd; [|by split].
    simpl. symmetry in Hnew. destruct (Hloaded Hnew) as (target & Hfind & Hmark).
    apply (updateOne_unique M d' target); [by rewrite Hid| |exact Hupd].
    unfold isModified in *. rewrite Hpaths, Hmail. exact Hmark.
Qed.

Lemma updated_document_email_unmodified (target : User) (ui : UpdateUserInput) :
  isModified "email" (updated_document target ui) = false →
  email (fields (updated_document target ui)) = email target.
Proof.
  intros Hmod. rewrite updated_document_fields. simpl.
  destruct (decide (email target = up_email ui)) as [Heq|Hne]; [by rewrite Heq|].
  rewrite (updated_document_email_modified target ui Hne) in Hmod. discriminate.
Qed.

Lemma createUser_unique `{E : Env} (M : UserModel) (userInput : option UserInput)
    (ctx : option Context) (w : World) :
  (unique_ids (users w) → unique_ids (users (createUser M userInput ctx w).2))
  ∧ (email_unique M = true → unique_ids (users w) → unique_emails (users w) →
     unique_emails (users (createUser M userInput ctx w).2)).
Proof.
  unfold createUser. destruct ctx as [c|]; [|by split].
  unfold try_catch_eff, bind, lift, throw, ret.
  destruct (read_role (ctx_user c)) as [r|e]; simpl; [|by destruct (_ && _)].
  destruct (negb (String.eqb r "Admin")); simpl; [by split|].
  destruct userInput as [ui|]; simpl; [|by split].
  destruct (newObjectId (entropy w)) as [oid r'].
  pose proof (save_unique M (new_User oid ui) (mkWorld _ (users w) r' (now w))) as Hsave.
  simpl in Hsave.
  destruct (save M (new_User oid ui) _) as [[d|e] w1]; simpl in *.
  - apply Hsave. discriminate.
  - destruct (_ && _); apply Hsave; discriminate.
Qed.

Lemma updateUser_unique `{E : Env} (M : UserModel) (ID : string)
    (userInput : option UpdateUserInput) (ctx : option Context) (w : World) :
  (unique_ids (users w) → unique_ids (users (updateUser M ID userInput ctx w).2))
  ∧ (email_unique M = true → unique_ids (users w) → unique_emails (users w) →
     unique_emails (users (updateUser M ID userInput ctx w).2)).
Proof.
  unfold updateUser. destruct ctx as [c|]; [|by split].
  unfold try_catch_eff, bind, lift, throw, ret, findById.
  destruct (read_role (ctx_user c)) as [r|e]; simpl; [|by split].
  destruct (negb (String.eqb r "Admin")); simpl; [by split|].
  destruct (castObjectId (JStr ID)) as [oid|]; simpl; [|by split].
  destruct (lookup_id oid (users w)) as [u|] eqn:Hfind; simpl; [|by split].
  destruct userInput as [ui|]; simpl; [|by split].
  pose proof (lookup_id_has_id oid (users w) u Hfind) as <-.
  fold (updated_document u ui).
  pose proof (save_unique M (updated_document u ui) w) as Hsave.
  destruct (save M (updated_document u ui) w) as [[saved|e] w']; simpl in *;
    apply Hsave; intros _; exists u;
    (split; [exact Hfind | apply updated_document_email_unmodified]).
Qed.

Lemma deleteUser_unique `{E : Env} (ID : string) (ctx : option Context) (w : World) :
  (unique_ids (users w) → unique_ids (users (deleteUser ID ctx w).2))
  ∧ (unique_emails (users w) → unique_emails (users (deleteUser ID ctx w).2)).
Proof.
  unfold deleteUser. destruct ctx as [c|]; [|by split].
  unfold try_catch_eff, bind, lift, throw, ret, findByIdAndDelete.
  destruct (read_role (ctx_user c)) as [r|e]; simpl; [|by split].
  destruct (negb (String.eqb r "Admin")); simpl; [by split|].
  destruct (castObjectId (JStr ID)) as [oid|]; simpl; [|by split].
  destruct (lookup_id oid (users w)); simpl; split; apply delete_first_NoDup.
Qed.

(** X13: no request breaks the uniqueness of ids, and, with a model whose
    email index is unique, none breaks the uniqueness of emails: if no two
    stored accounts share an [_id] (an email) before a request, whatever
    its header and operation, none do after it. *)
Theorem requests_keep_accounts_unique `{E : Env} (M : UserModel) (req : Request)
    (op : Operation) (w : World) :
  unique_ids (users w) →
  unique_ids (users (handleRequest M req op w).2)
  ∧ (email_unique M = true → unique_emails (users w) →
     unique_emails (users (handleRequest M req op w).2)).
Proof.
  intros Hids. unfold handleRequest.
  pose proof (context_world req w) as Hctx.
  destruct (context req w) as [[ctx|e] w0]; simpl in Hctx; subst w0; [|by split].
  generalize (Some (default empty_context ctx)). clear ctx. intros ctx.
  assert (Hgoal : unique_ids (users (resolve M op ctx w).2)
                  ∧ (email_unique M = true → unique_emails (users w) →
                     unique_emails (users (resolve M op ctx w).2))).
  { destruct op as [ID|pagination sort|userInput|email0 password0|ID userInput|ID];
      simpl.
    - rewrite getUser_world. by split.
    - rewrite getUsers_world. by split.
    - destruct (createUser_unique M userInput ctx w) as [H1 H2].
      split; [by apply H1|]. intros HM Hm. by apply H2.
    - rewrite loginUser_world. by split.
    - destruct (updateUser_unique M ID userInput ctx w) as [H1 H2].
      split; [by apply H1|]. intros HM Hm. by apply H2.
    - destruct (deleteUser_unique ID ctx w) as [H1 H2].
      split; [by apply H1|]. intros HM Hm. by apply H2. }
  destruct (resolve M op ctx w) as [[env|e] w1]; exact Hgoal.
Qed.

Lemma requests_keep_accounts_unique_witness :
  let after := users (@handleRequest sampleEnv userSchema (mkRequest (Some "Bearer k.a1"))
                        (OpCreateUser (Some carol_input)) sampleWorld).2 in
  unique_ids after ∧ unique_emails after.
Proof.
  assert (Hids : unique_ids (users sampleWorld)).
  { unfold unique_ids. simpl. apply NoDup_cons. split; [|apply NoDup_singleton].
    rewrite list_elem_of_singleton. discriminate. }
  assert (Hmails : unique_emails (users sampleWorld)).
  { unfold unique_emails. simpl. apply NoDup_cons. split; [|apply NoDup_singleton].
    rewrite list_elem_of_singleton. discriminate. }
  destruct (@requests_keep_accounts_unique sampleEnv userSchema
              (mkRequest (Some "Bearer k.a1")) (OpCreateUser (Some carol_input))
              sampleWorld Hids) as [H1 H2].
  split; [exact H1|]. apply H2; [reflexivity|exact Hmails].
Defined.

(** ** The earlier generation *)

Lemma save_new_result `{E : Env} (M : UserModel) (oid : string) (ui : UserInput)
    (w w' : World) (saved : Document) :
  save M (new_User oid ui) w = (Ok saved, w') →
  users w' = (users w ++ [fields saved])%list
  ∧ _id (fields saved) = oid
  ∧ username (fields saved) = in_username ui
  ∧ email (fields saved) = in_email ui
  ∧ address (fields saved) = in_address ui
  ∧ role (fields saved) = "User".
Proof.
  unfold save. destruct (validate M (new_User oid ui)); [|discriminate].
  unfold preSave. rewrite isModified_password_new_User. simpl.
  destruct (bcrypt_genSalt 10 (entropy w)) as [salt r].
  destruct (in_password ui) as [p|] eqn:Hp; simpl; [|discriminate].
  destruct (insertOne M _ (users w)) as [us|e] eqn:Hins; [|discriminate].
  intros [= <- <-]. simpl. unfold insertOne in Hins.
  destruct (existsb _ (users w)); [discriminate|].
  destruct (_ && _); [discriminate|]. injection Hins as <-. by repeat split.
Qed.

Lemma save_failed_users `{E : Env} (M : UserModel) (d : Document) (w w' : World)
    (e : JsError) :
  save M d w = (Throw e, w') → users w' = users w.
Proof.
  unfold save. destruct (validate M d); [|by intros [= _ <-]].
  destruct (preSave d (entropy w)) as [[d'|e'] r]; [|by intros [= _ <-]].
  destruct (if isNew d' then _ else _); [discriminate|by intros [= _ <-]].
Qed.

(** X14: the [createUser] of the earlier generation always returns an
    envelope, of status 201 or 500 only (a taken key is a 500 there).
    With 201 the [data] is the account that was created, stored last in
    the collection, with the username, email and address of the input and
    the role "User"; with 500 the collection is as it was. *)
Theorem gen1_createUser_returns_created `{E : Env} (M : UserModel)
    (userInput : option UserInput) (w : World) :
  ∃ env w',
    Gen1.createUser M userInput w = (Ok env, w')
    ∧ ((status env = 201
        ∧ ∃ ui u, userInput = Some ui
                  ∧ data env = Some (OneUser u)
                  ∧ users w' = (users w ++ [u])%list
                  ∧ username u = in_username ui
                  ∧ email u = in_email ui
                  ∧ address u = in_address ui
                  ∧ role u = "User")
       ∨ (status env = 500 ∧ users w' = users w)).
Proof.
  unfold Gen1.createUser, try_catch_eff, bind, lift, throw, ret.
  destruct userInput as [ui|]; simpl.
  - destruct (newObjectId (entropy w)) as [oid r].
    destruct (save M (new_User oid ui) _) as [[saved|e] w1] eqn:Hsave.
    + eexists _, _. split; [reflexivity|]. left. split; [reflexivity|].
      apply save_new_result in Hsave as (Husers & _ & Hn & Hm & Ha & Hr).
      exists ui, (fields saved). by repeat split.
    + eexists _, _. split; [reflexivity|]. right. split; [reflexivity|].
      by apply save_failed_users in Hsave.
  - eexists _, _. split; [reflexivity|]. right. by split.
Qed.

Lemma isModified_password_gen1 (target : User) (ui : UserInput) :
  isModified "password"
    (assign_address (in_address ui)
       (assign_password (in_password ui)
          (assign_email (in_email ui)
             (assign_username (in_username ui) (loaded target)))))
  = negb (bool_decide (password target = in_password ui)).
Proof.
  unfold isModified, assign_address, assign_password, assign_email, assign_username,
    mark, loaded. simpl.
  destruct (bool_decide (address target = in_address ui));
    destruct (bool_decide (password target = in_password ui));
    destruct (bool_decide (email target = in_email ui));
    destruct (bool_decide (username target = in_username ui));
    vm_compute; reflexivity.
Qed.

(** X15: in the earlier generation [updateUser] also assigns the
    password, and the pre-save hook hashes it when it differs from the
    stored value: when such an update to a new password [p] succeeds, the
    account stored at the id and returned as [data] has as password the
    hash of [p] under the salt drawn, which [comparePassword] accepts for
    [p], and keeps its role. *)
Theorem gen1_updateUser_hashes_new_password `{E : Env} `{!BcryptLaws E}
    (M : UserModel) (ID oid p : string) (ui : UserInput) (target : User)
    (w w' : World) (env : Envelope) :
  castObjectId (JStr ID) = Some oid →
  lookup_id oid (users w) = Some target →
  in_password ui = Some p →
  password target ≠ Some p →
  Gen1.updateUser M ID (Some ui) w = (Ok env, w') →
  status env = 200 →
  ∃ u', lookup_id oid (users w') = Some u'
        ∧ data env = Some (OneUser u')
        ∧ password u' = Some (bcrypt_hash p (bcrypt_genSalt 10 (entropy w)).1)
        ∧ comparePassword u' p = Ok true
        ∧ role u' = role target.
Proof.
  intros Hcast Hfind Hp Hchanged.
  pose proof (lookup_id_has_id oid (users w) target Hfind) as Hid.
  unfold Gen1.updateUser, try_catch_eff, bind, lift, throw, ret, findById.
  rewrite Hcast, Hfind.
  set (d := assign_address _ _).
  assert (Hmod : isModified "password" d = true).
  { subst d. rewrite isModified_password_gen1, Hp.
    by rewrite bool_decide_eq_false_2. }
  unfold save. destruct (validate M d); [|intros [= <- _]; discriminate].
  assert (Hpw : password (fields d) = Some p) by (subst d; exact Hp).
  unfold preSave. rewrite Hmod. cbn [negb].
  destruct (bcrypt_genSalt 10 (entropy w)) as [salt r] eqn:Hsalt.
  rewrite Hpw. simpl.
  unfold updateOne. simpl.
  destruct (negb (existsb _ (users w))); [intros [= <- _]; discriminate|].
  destruct (email_unique M && _ && _); [intros [= <- _]; discriminate|].
  intros [= <- <-] _. simpl. eexists. split.
  - rewrite <- Hid at 1.
    apply (lookup_id_replace_first_eq target
             (mkUser (_id target) (in_username ui) (in_email ui)
                (Some (bcrypt_hash p salt)) (in_address ui) (role target))).
    simpl. by rewrite Hid.
  - split; [reflexivity|]. split; [reflexivity|]. split; [|reflexivity].
    unfold comparePassword. simpl.
    pose proof (compare_hash p 10 (entropy w)) as Hlaw. rewrite Hsalt in Hlaw.
    simpl in Hlaw. by rewrite Hlaw.
Qed.

Lemma gen1_updateUser_hashes_new_password_witness :
  let input := mkUserInput (Some "bob") (Some "bob@example.org") (Some "new-pw")
                 (Some "2 Side St") in
  let bob' := mkUser "b2" (Some "bob") (Some "bob@example.org") (Some "Cnew-pw")
                (Some "2 Side St") "User" in
  ∃ u', lookup_id "b2"
          (users (@Gen1.updateUser sampleEnv userSchema_dist "b2" (Some input)
                    sampleWorld).2) = Some u'
        ∧ Some (OneUser bob') = Some (OneUser u')
        ∧ password u' = Some "Cnew-pw"
        ∧ @comparePassword sampleEnv u' "new-pw" = Ok true
        ∧ role u' = "User".
Proof.
  apply (@gen1_updateUser_hashes_new_password sampleEnv sample_bcrypt_laws
           userSchema_dist "b2" "b2" "new-pw"
           (mkUserInput (Some "bob") (Some "bob@example.org") (Some "new-pw")
              (Some "2 Side St"))
           bob sampleWorld _
           (mkEnvelope 200 true (Some (Text "User updated successfully")) None
              (Some (OneUser (mkUser "b2" (Some "bob") (Some "bob@example.org")
                                (Some "Cnew-pw") (Some "2 Side St") "User")))
              None None None None)).
  - reflexivity.
  - reflexivity.
  - reflexivity.
  - discriminate.
  - vm_compute. reflexivity.
  - reflexivity.
Defined.

(** X16: in the earlier generation an update that leaves the password
    out of the input never succeeds on an account that has one: the
    assignment unsets the password, so the save fails (on the required
    path, or in the hook, where bcrypt refuses the missing value); the
    envelope has status 500 and the collection is as it was. *)
Theorem gen1_updateUser_needs_password `{E : Env} (M : UserModel) (ID oid : string)
    (ui : UserInput) (target : User) (w : World) :
  castObjectId (JStr ID) = Some oid →
  lookup_id oid (users w) = Some target →
  in_password ui = None →
  password target ≠ None →
  ∃ env w', Gen1.updateUser M ID (Some ui) w = (Ok env, w')
            ∧ status env = 500
            ∧ success env = false
            ∧ users w' = users w.
Proof.
  intros Hcast Hfind Hp Hhas.
  unfold Gen1.updateUser, try_catch_eff, bind, lift, throw, ret, findById.
  rewrite Hcast, Hfind.
  set (d := assign_address _ _).
  assert (Hmod : isModified "password" d = true).
  { subst d. rewrite isModified_password_gen1, Hp.
    by rewrite bool_decide_eq_false_2. }
  assert (Hpw : password (fields d) = None) by (subst d; exact Hp).
  unfold save. destruct (validate M d).
  - unfold preSave. rewrite Hmod. cbn [negb].
    destruct (bcrypt_genSalt 10 (entropy w)) as [salt r]. rewrite Hpw.
    eexists _, _. by repeat split.
  - eexists _, _. by repeat split.
Qed.

Lemma gen1_updateUser_needs_password_witness :
  ∃ env w',
    @Gen1.updateUser sampleEnv userSchema "b2"
      (Some (mkUserInput (Some "bob") (Some "bob@example.org") None (Some "2 Side St")))
      sampleWorld = (Ok env, w')
    ∧ status env = 500
    ∧ success env = false
    ∧ users w' = [alice; bob].
Proof.
  apply (@gen1_updateUser_needs_password sampleEnv userSchema "b2" "b2"
           (mkUserInput (Some "bob") (Some "bob@example.org") None (Some "2 Side St"))
           bob sampleWorld).
  - reflexivity.
  - reflexivity.
  - reflexivity.
  - discriminate.
Defined.

Lemma take_drop_elem {A} (x : A) (n : nat) (k : nat) (l : list A) :
  x ∈ take n (drop k l) → x ∈ l.
Proof.
  intros Hx. eapply elem_of_sublist; [exact Hx|].
  etransitivity; [apply sublist_take|apply sublist_drop].
Qed.

(** X17: the [getUsers] of the earlier generation, with no context and a
    filter: every account it returns is stored and has the username of
    the filter when that is a non-empty string, and the email of the
    filter likewise (an empty string filters nothing); [totalUsers] is the
    number of stored accounts that match, and no more accounts are
    returned than that. *)
Theorem gen1_getUsers_filter `{E : Env} (pagination : option PaginationInput)
    (flt : option Gen1.FilterInput) (w w' : World) (env : Envelope)
    (found : list User) :
  Gen1.getUsers pagination flt w = (Ok env, w') →
  data env = Some (ManyUsers found) →
  (∀ u, u ∈ found →
        u ∈ users w
        ∧ (∀ name, flt ≫= Gen1.f_username = Some name → name ≠ "" →
                   username u = Some name)
        ∧ (∀ mail, flt ≫= Gen1.f_email = Some mail → mail ≠ "" →
                   email u = Some mail))
  ∧ (∃ info, pageInfo env = Some info
             ∧ totalUsers info
               = Z.of_nat (length (List.filter (Gen1.matches flt) (users w)))
             ∧ Z.of_nat (length found) ≤ totalUsers info)
  ∧ w' = w.
Proof.
  unfold Gen1.getUsers, try_catch_eff, bind, lift, throw, ret, Gen1.find_exec,
    Gen1.countDocuments.
  set (matching := List.filter (Gen1.matches flt) (users w)).
  assert (Hmatching : ∀ u, u ∈ matching →
            u ∈ users w
            ∧ (∀ name, flt ≫= Gen1.f_username = Some name → name ≠ "" →
                       username u = Some name)
            ∧ (∀ mail, flt ≫= Gen1.f_email = Some mail → mail ≠ "" →
                       email u = Some mail)).
  { intros u Hu. apply list_elem_of_In in Hu. apply filter_In in Hu as [Hin Hm].
    split; [by apply list_elem_of_In|].
    unfold Gen1.matches in Hm. apply andb_true_iff in Hm as [Hn He].
    split.
    - intros name Hname Hne. rewrite Hname in Hn.
      rewrite (truthy_str_Some name Hne) in Hn. by apply bool_decide_eq_true in Hn.
    - intros mail Hmail Hne. rewrite Hmail in He.
      rewrite (truthy_str_Some mail Hne) in He. by apply bool_decide_eq_true in He. }
  assert (Hdone : ∀ out : list User, sublist out matching →
            ∀ n pages pg,
              n = Z.of_nat (length matching) →
              (Ok (mkEnvelope 200 true None None (Some (ManyUsers out)) None None None
                     (Some (mkPageInfo n pages pg))), w) = (Ok env, w') →
              data env = Some (ManyUsers found) →
              (∀ u, u ∈ found →
                    u ∈ users w
                    ∧ (∀ name, flt ≫= Gen1.f_username = Some name → name ≠ "" →
                               username u = Some name)
                    ∧ (∀ mail, flt ≫= Gen1.f_email = Some mail → mail ≠ "" →
                               email u = Some mail))
              ∧ (∃ info, pageInfo env = Some info
                         ∧ totalUsers info = Z.of_nat (length matching)
                         ∧ Z.of_nat (length found) ≤ totalUsers info)
              ∧ w' = w).
  { intros out Hout n pages pg -> [= <- <-]. simpl. intros [= <-].
    split; [|split; [|reflexivity]].
    - intros u Hu. apply Hmatching. by eapply elem_of_sublist.
    - eexists. split; [reflexivity|]. split; [reflexivity|]. simpl.
      apply inj_le. by apply sublist_length. }
  destruct (truthy_int (pagination ≫= limit)) eqn:Hlim;
    destruct (pagination ≫= page) as [p|]; simpl;
    try (destruct (negb (p =? 0)); simpl);
    try (destruct (_ <? 0); simpl; [intros [= <- _]; discriminate|]);
    apply Hdone; try reflexivity;
    try destruct (pagination ≫= limit);
    repeat (first [ reflexivity
                  | etransitivity; [apply sublist_take|]
                  | etransitivity; [apply sublist_drop|] ]).
Qed.

Lemma gen1_getUsers_filter_witness :
  (bob ∈ users sampleWorld ∧ username bob = Some "bob")
  ∧ ∃ info, Some (mkPageInfo 1 1 None) = Some info ∧ totalUsers info = 1.
Proof.
  destruct (@gen1_getUsers_filter sampleEnv None
              (Some (Gen1.mkFilterInput (Some "bob") (Some ""))) sampleWorld sampleWorld
              (mkEnvelope 200 true None None (Some (ManyUsers [bob])) None None None
                 (Some (mkPageInfo 1 1 None)))
              [bob])
    as (Hall & (info & Hinfo & Htotal & _) & _).
  - vm_compute. reflexivity.
  - reflexivity.
  - destruct (Hall bob (list_elem_of_here _ _)) as (Hin & Hname & _).
    split.
    + split; [exact Hin|]. apply Hname; [reflexivity|discriminate].
    + exists info. split; [exact Hinfo|exact Htotal].
Defined.

(** ** No request makes an Admin *)

Lemma same_credentials_elem (before after : list User) (u : User) :
  Forall2 same_credentials before after →
  u ∈ after →
  ∃ u0, u0 ∈ before ∧ _id u0 = _id u ∧ role u0 = role u.
Proof.
  induction 1 as [|x y before after (Hid & _ & Hrole) _ IH]; [by intros ?%elem_of_nil|].
  intros [->|Hu]%elem_of_cons.
  - exists x. split; [apply list_elem_of_here|]. by split.
  - destruct (IH Hu) as (u0 & Hin & Hrest). exists u0.
    split; [by apply list_elem_of_further|exact Hrest].
Qed.

Lemma createUser_users `{E : Env} (M : UserModel) (userInput : option UserInput)
    (ctx : option Context) (w : World) :
  users (createUser M userInput ctx w).2 = users w
  ∨ ∃ u, users (createUser M userInput ctx w).2 = (users w ++ [u])%list
         ∧ role u = "User".
Proof.
  unfold createUser. destruct ctx as [c|]; [|by left].
  unfold try_catch_eff, bind, lift, throw, ret.
  destruct (read_role (ctx_user c)) as [r|e]; simpl; [|destruct (_ && _); by left].
  destruct (negb (String.eqb r "Admin")); simpl; [by left|].
  destruct userInput as [ui|]; simpl; [|by left].
  destruct (newObjectId (entropy w)) as [oid r'].
  destruct (save M (new_User oid ui) _) as [[d|e] w1] eqn:Hsave; simpl.
  - right. apply save_new_result in Hsave as (Husers & _ & _ & _ & _ & Hrole).
    by exists (fields d).
  - left. apply save_failed_users in Hsave. by destruct (_ && _).
Qed.

Lemma updateUser_same_credentials `{E : Env} (M : UserModel) (ID : string)
    (userInput : option UpdateUserInput) (ctx : option Context) (w : World) :
  Forall2 same_credentials (users w) (users (updateUser M ID userInput ctx w).2).
Proof.
  unfold updateUser. destruct ctx as [c|]; [|apply same_credentials_refl].
  unfold try_catch_eff, bind, lift, throw, ret, findById.
  destruct (read_role (ctx_user c)) as [r|e]; simpl; [|apply same_credentials_refl].
  destruct (negb (String.eqb r "Admin")); simpl; [apply same_credentials_refl|].
  destruct (castObjectId (JStr ID)) as [oid|]; simpl; [|apply same_credentials_refl].
  destruct (lookup_id oid (users w)) as [u|] eqn:Hfind; simpl;
    [|apply same_credentials_refl].
  destruct userInput as [ui|]; simpl; [|apply same_credentials_refl].
  pose proof (lookup_id_has_id oid (users w) u Hfind) as <-.
  pose proof (save_updated_document M u ui w Hfind) as Hsave.
  fold (updated_document u ui).
  destruct (save M (updated_document u ui) w) as [[saved|e] w']; exact Hsave.
Qed.

Lemma deleteUser_sublist `{E : Env} (ID : string) (ctx : option Context) (w : World) :
  sublist (users (deleteUser ID ctx w).2) (users w).
Proof.
  unfold deleteUser. destruct ctx as [c|]; [|reflexivity].
  unfold try_catch_eff, bind, lift, throw, ret, findByIdAndDelete.
  destruct (read_role (ctx_user c)) as [r|e]; simpl; [|reflexivity].
  destruct (negb (String.eqb r "Admin")); simpl; [reflexivity|].
  destruct (castObjectId (JStr ID)) as [oid|]; simpl; [|reflexivity].
  destruct (lookup_id oid (users w)); simpl; apply delete_first_sublist.
Qed.

(** X18: no request makes an Admin.  Whatever the header and the
    operation, every account with the role "Admin" in the collection after
    a request was in it before, under the same id and with that role:
    [createUser] stores the role "User" only, [updateUser] keeps roles, and
    nothing else writes. *)
Theorem requests_make_no_admin `{E : Env} (M : UserModel) (req : Request)
    (op : Operation) (w : World) (u : User) :
  u ∈ users (handleRequest M req op w).2 →
  role u = "Admin" →
  ∃ u0, u0 ∈ users w ∧ _id u0 = _id u ∧ role u0 = "Admin".
Proof.
  unfold handleRequest.
  pose proof (context_world req w) as Hctx.
  destruct (context req w) as [[ctx|e] w0]; simpl in Hctx; subst w0.
  2:{ intros Hu Hrole. by exists u. }
  generalize (Some (default empty_context ctx)). clear ctx. intros ctx.
  assert (Hgoal : u ∈ users (resolve M op ctx w).2 → role u = "Admin" →
                  ∃ u0, u0 ∈ users w ∧ _id u0 = _id u ∧ role u0 = "Admin").
  { destruct op as [ID|pagination sort|userInput|email0 password0|ID userInput|ID];
      simpl.
    - rewrite getUser_world. intros Hu Hrole. by exists u.
    - rewrite getUsers_world. intros Hu Hrole. by exists u.
    - destruct (createUser_users M userInput ctx w) as [->|(u' & -> & Hu')].
      + intros Hu Hrole. by exists u.
      + intros [Hu| ->%list_elem_of_singleton]%elem_of_app Hrole.
        * by exists u.
        * rewrite Hu' in Hrole. discriminate.
    - rewrite loginUser_world. intros Hu Hrole. by exists u.
    - intros Hu Hrole.
      destruct (same_credentials_elem _ _ u
                  (updateUser_same_credentials M ID userInput ctx w) Hu)
        as (u0 & Hin & Hid & Hr).
      exists u0. split; [exact Hin|]. split; [exact Hid|congruence].
    - intros Hu Hrole. exists u. split; [|by split].
      eapply elem_of_sublist; [exact Hu|apply deleteUser_sublist]. }
  destruct (resolve M op ctx w) as [[env|e] w1]; exact Hgoal.
Qed.

Lemma requests_make_no_admin_witness :
  ∃ u0, u0 ∈ users sampleWorld ∧ _id u0 = "a1" ∧ role u0 = "Admin".
Proof.
  apply (@requests_make_no_admin sampleEnv userSchema (mkRequest (Some "Bearer k.a1"))
           (OpCreateUser (Some carol_input)) sampleWorld alice).
  - vm_compute. apply list_elem_of_here.
  - reflexivity.
Defined.

(** ** What a token says *)

(** X19: the payload [generateAuthToken] signs has the [userId] of the
    account, its username and its email when they are set, and, in the
    TypeScript model, its role; the older compiled model signs no role;
    the payload has no other key, and the password is never in it. *)
Theorem token_payload_claims (M : UserModel) (this : User) (k : string) :
  token_payload M this !! k
  = if String.eqb k "userId" then Some (JStr (_id this))
    else if String.eqb k "username" then JStr <$> username this
    else if String.eqb k "email" then JStr <$> email this
    else if String.eqb k "role"
         then (if token_has_role M then Some (JStr (role this)) else None)
    else None.
Proof.
  assert (Hset : ∀ key v (m : gmap string JVal),
            set_opt key v m !! k
            = if String.eqb k key then (match v with Some s => Some (JStr s)
                                                 | None => m !! k end)
              else m !! k).
  { intros key v m. destruct (String.eqb_spec k key) as [->|Hne].
    - destruct v; simpl; [apply lookup_insert_eq|reflexivity].
    - apply set_opt_lookup_ne. congruence. }
  unfold token_payload.
  destruct (String.eqb_spec k "userId") as [->|Hid].
  { apply token_payload_userId. }
  assert (Hbase : ({[ "userId" := JStr (_id this) ]} : gmap string JVal) !! k = None).
  { apply lookup_singleton_ne. congruence. }
  destruct (token_has_role M).
  - destruct (String.eqb_spec k "role") as [->|Hrole].
    + simpl. apply lookup_insert_eq.
    + rewrite lookup_insert_ne by congruence. rewrite !Hset, Hbase.
      destruct (String.eqb_spec k "username") as [Hn|Hn];
        destruct (String.eqb_spec k "email") as [He|He];
        try (rewrite Hn in He; discriminate);
        destruct (email this), (username this); reflexivity.
  - rewrite !Hset, Hbase.
    destruct (String.eqb_spec k "username") as [Hn|Hn];
      destruct (String.eqb_spec k "email") as [He|He];
      try (rewrite Hn in He; discriminate);
      try (destruct (email this), (username this); reflexivity).
    by destruct (String.eqb k "role").
Qed.

(** ** createUser without a password *)

(** X20: [createUser] cannot store an account without a password, though
    the schema of the TypeScript model does not require one: [new User]
    marks the password path modified even when the input leaves it out,
    so the pre-save hook gives the missing value to bcrypt, which throws
    (or, where the model requires the password, validation fails first).
    An Admin's call then gets the status 500 envelope "Internal Server
    Error" and the collection is as it was. *)
Theorem createUser_without_password `{E : Env} (M : UserModel) (ui : UserInput)
    (c : Context) (admin : User) (w : World) :
  ctx_user c = Some admin →
  role admin = "Admin" →
  in_password ui = None →
  ∃ e w',
    createUser M (Some ui) (Some c) w
    = (Ok (mkEnvelope 500 false (Some (Text "Internal Server Error"))
             (Some (LibraryText e)) None None None None None), w')
    ∧ (e = BcryptError ∨ ∃ paths, e = ValidationError paths)
    ∧ users w' = users w.
Proof.
  intros Hc Hrole Hp.
  unfold createUser, try_catch_eff, bind, lift, throw, ret.
  rewrite Hc. simpl. rewrite Hrole. simpl.
  destruct (newObjectId (entropy w)) as [oid r].
  unfold save. simpl.
  unfold validate.
  match goal with |- context [match ?bad with [] => Ok () | _ :: _ => _ end] =>
    destruct bad as [|path paths] eqn:Hbad end.
  - unfold preSave. rewrite isModified_password_new_User. simpl.
    destruct (bcrypt_genSalt 10 r) as [salt r']. rewrite Hp. simpl.
    exists BcryptError. eexists. split; [reflexivity|]. split; [by left|reflexivity].
  - simpl. exists (ValidationError (path :: paths)). eexists.
    split; [reflexivity|]. split; [right; by eexists|reflexivity].
Qed.

Lemma createUser_without_password_witness :
  ∃ e w',
    @createUser sampleEnv userSchema
      (Some (mkUserInput (Some "dave") (Some "dave@example.org") None (Some "5 Far St")))
      (Some aliceContext) sampleWorld
    = (Ok (mkEnvelope 500 false (Some (Text "Internal Server Error"))
             (Some (LibraryText e)) None None None None None), w')
    ∧ (e = BcryptError ∨ ∃ paths, e = ValidationError paths)
    ∧ users w' = [alice; bob].
Proof.
  apply (@createUser_without_password sampleEnv userSchema
           (mkUserInput (Some "dave") (Some "dave@example.org") None (Some "5 Far St"))
           aliceContext alice sampleWorld); reflexivity.
Defined.

Example createUser_without_password_sample :
  (@createUser sampleEnv userSchema
     (Some (mkUserInput (Some "dave") (Some "dave@example.org") None (Some "5 Far St")))
     (Some aliceContext) sampleWorld).1
  = Ok (failure_with_error 500 "Internal Server Error" BcryptError).
Proof. vm_compute. reflexivity. Qed.
